(** * CrescitaDigitale bot: exchange ledger and request lifecycle

    A shallow embedding of [bot.py] (the [DatabaseManager] class, the
    earnings computation and the conversation handlers that create
    requests, record completions and take purchase forms) together with
    the properties of the ledger that hold of it.

    Modelling conventions.
    - Python integers are unbounded and are modelled by [Z].  The SQLite
      tables are modelled over [Z] as well: the 64-bit range of the
      INTEGER storage class is not followed.
    - [cost * 0.25], [cost * 0.125] and [coins * 0.03] are binary64
      products; module [PyFloat] follows their rounding (53 significant
      bits, ties to even) over an unbounded exponent range.
    - Every [DatabaseManager] method opens its own connection and commits
      before it returns, and handlers run one at a time, so a method is a
      function from store to store.
    - Message texts and button payloads are ASCII strings.
    - Timestamp columns are not modelled: no operation reads them.  The
      download of the photo and the notices sent to the administrators
      do not touch the store and are left out.
    - Reply texts are abstracted to one constructor per message. *)

From Stdlib Require Import ZArith List String Ascii Bool Lia Permutation.
From Stdlib Require Import PrimFloat FloatOps SpecFloat Uint63.
From stdpp Require Import base gmap list strings pretty.

Open Scope Z_scope.

(** ** Binary64 arithmetic as Python performs it *)

Module PyFloat.

(** A finite float [Fnum * 2 ^ Fexp]. *)
Record float := Float { Fnum : Z; Fexp : Z }.

Definition prec : Z := 53.

(** Number of binary digits of [|m|]. *)
Definition digits (m : Z) : Z :=
  if m =? 0 then 0 else Z.log2 (Z.abs m) + 1.

(** Round [q + r / 2 ^ sh] to an integer, nearest, ties to even. *)
Definition round_half_even (q r half : Z) : Z :=
  if r <? half then q
  else if half <? r then q + 1
  else if Z.even q then q else q + 1.

(** The float nearest to the exact value [m * 2 ^ e]. *)
Definition round53 (m e : Z) : float :=
  let k := digits m in
  if k <=? prec then Float m e
  else
    let sh := k - prec in
    let q := Z.abs m / 2 ^ sh in
    let r := Z.abs m mod 2 ^ sh in
    Float (Z.sgn m * round_half_even q r (2 ^ (sh - 1))) (e + sh).

(** [float(n)] for a Python int [n]. *)
Definition of_int (n : Z) : float := round53 n 0.

(** [a * b] on floats. *)
Definition mul (a b : float) : float :=
  round53 (Fnum a * Fnum b) (Fexp a + Fexp b).

(** [int(x)]: truncation towards zero. *)
Definition to_int (x : float) : Z :=
  if 0 <=? Fexp x then Fnum x * 2 ^ Fexp x
  else Z.quot (Fnum x) (2 ^ (- Fexp x)).

(** Literals of the source. *)
Definition f_0_25 : float := Float 1 (-2).
Definition f_0_125 : float := Float 1 (-3).
(** [0.03] is [0x1.eb851eb851eb8p-6]. *)
Definition f_0_03 : float := Float 8646911284551352 (-58).
Definition f_5 : float := Float 5 0.
Definition f_10 : float := Float 10 0.
Definition f_18 : float := Float 18 0.
Definition f_30 : float := Float 30 0.

(** [n * x] for an int [n] and a float [x]: [n] is converted first. *)
Definition int_mul (n : Z) (x : float) : float := mul (of_int n) x.

End PyFloat.


(** ** Text: [str.split('_')], [str.strip()] and [int(str)] *)

Module PyStr.

Definition is_space (c : ascii) : bool :=
  let n := nat_of_ascii c in
  ((9 <=? n) && (n <=? 13) || (28 <=? n) && (n <=? 32))%nat.

Definition digit_of (c : ascii) : option Z :=
  let n := nat_of_ascii c in
  if ((48 <=? n) && (n <=? 57))%nat then Some (Z.of_nat n - 48) else None.

Fixpoint lstrip (l : list ascii) : list ascii :=
  match l with
  | c :: l' => if is_space c then lstrip l' else l
  | [] => []
  end.

(** [s.strip()] on the characters of [s]. *)
Definition strip (l : list ascii) : list ascii :=
  rev (lstrip (rev (lstrip l))).

Definition strip_str (s : string) : string :=
  string_of_list_ascii (strip (list_ascii_of_string s)).

(** Digits with single underscores between them, after [acc] has been
    read; [prev_digit] tells whether the last character was a digit. *)
Fixpoint digits_from (l : list ascii) (acc : Z) (prev_digit : bool)
  : option Z :=
  match l with
  | [] => if prev_digit then Some acc else None
  | c :: l' =>
      match digit_of c with
      | Some d => digits_from l' (10 * acc + d) true
      | None =>
          if (Ascii.eqb c "_" && prev_digit)%bool
          then digits_from l' acc false
          else None
      end
  end.

(** The white space that [int(s)] skips around the number: codes 9 to 13
    and 32.  It is a smaller set than the one of [str.strip()]: the
    separators 28 to 31 are stripped by [strip] and refused by [int]. *)
Definition is_int_space (c : ascii) : bool :=
  let n := nat_of_ascii c in
  ((9 <=? n) && (n <=? 13) || (n =? 32))%nat.

Fixpoint int_lstrip (l : list ascii) : list ascii :=
  match l with
  | c :: l' => if is_int_space c then int_lstrip l' else l
  | [] => []
  end.

Definition int_strip (l : list ascii) : list ascii :=
  rev (int_lstrip (rev (int_lstrip l))).

(** [int(s)] for ASCII text: white space around, a sign, decimal digits
    with single underscores between them.  [None] stands for
    [ValueError].  The bound that recent Python versions put on the
    number of digits is not followed. *)
Definition int (s : string) : option Z :=
  match int_strip (list_ascii_of_string s) with
  | "-"%char :: l => Z.opp <$> digits_from l 0 false
  | "+"%char :: l => digits_from l 0 false
  | l => digits_from l 0 false
  end.

(** [s.split('_')]. *)
Fixpoint split_us (s : string) (cur : string) : list string :=
  match s with
  | EmptyString => [String.rev cur]
  | String c s' =>
      if Ascii.eqb c "_" then String.rev cur :: split_us s' EmptyString
      else split_us s' (String c cur)
  end.

Definition split (s : string) : list string := split_us s EmptyString.

(** [str(n)] as used in f-strings. *)
Definition of_int (n : Z) : string := pretty n.

End PyStr.

(** ** The store *)

(** Python exceptions that the modelled code can raise. *)
Inductive exn :=
| KeyError (key : string)
| TypeError
| ValueError
| IndexError
| IntegrityError.

(** Row of table [users]; the key [telegram_id] is the key of the map. *)
Record user := mkUser {
  instagram_username : option string;
  coin_balance : Z;
  secondary_profile_1 : option string;
  secondary_profile_2 : option string;
  secondary_profile_1_verified : bool;
  secondary_profile_2_verified : bool
}.

(** Row of table [interactions]. *)
Record interaction := mkInteraction {
  id : Z;
  requester_id : Z;
  post_link : string;
  action_type : string;
  quantity : Z;
  cost_per_action : Z;
  total_cost : Z;
  completed_count : Z;
  status : string;
  screenshot_id : option string
}.

(** Row of table [user_interactions]. *)
Record user_interaction := mkUserInteraction {
  ui_id : Z;
  ui_user_id : Z;
  ui_interaction_id : Z;
  ui_screenshot_id : option string;
  ui_earnings : Z;
  ui_profile_type : string
}.

Record ticket := mkTicket {
  t_id : Z;
  t_user_id : Z;
  t_message : string;
  t_status : string
}.

Record purchase_form := mkPurchaseForm {
  pf_id : Z;
  pf_user_id : Z;
  pf_name : string;
  pf_phone : string;
  pf_coins_requested : Z;
  pf_amount_euro : PyFloat.float;
  pf_status : string
}.

Record screenshot := mkScreenshot {
  sc_user_id : Z;
  sc_file_path : string;
  sc_interaction_id : Z
}.

(** The database.  A table with an AUTOINCREMENT key is the list of its
    rows in insertion order: rows are never deleted, so the key of a new
    row is the number of rows plus one.  A table with a declared primary
    key is a map from that key. *)
Record store := mkStore {
  users : gmap Z user;
  interactions : list interaction;
  user_interactions : list user_interaction;
  tickets : list ticket;
  purchase_forms : list purchase_form;
  screenshots : gmap string screenshot
}.

Definition set_users (f : gmap Z user → gmap Z user) (s : store) : store :=
  mkStore (f (users s)) (interactions s) (user_interactions s)
          (tickets s) (purchase_forms s) (screenshots s).
Definition set_interactions (f : list interaction → list interaction)
  (s : store) : store :=
  mkStore (users s) (f (interactions s)) (user_interactions s)
          (tickets s) (purchase_forms s) (screenshots s).
Definition set_user_interactions
  (f : list user_interaction → list user_interaction) (s : store) : store :=
  mkStore (users s) (interactions s) (f (user_interactions s))
          (tickets s) (purchase_forms s) (screenshots s).
Definition set_tickets (f : list ticket → list ticket) (s : store) : store :=
  mkStore (users s) (interactions s) (user_interactions s)
          (f (tickets s)) (purchase_forms s) (screenshots s).
Definition set_purchase_forms (f : list purchase_form → list purchase_form)
  (s : store) : store :=
  mkStore (users s) (interactions s) (user_interactions s)
          (tickets s) (f (purchase_forms s)) (screenshots s).
Definition set_screenshots (f : gmap string screenshot → gmap string screenshot)
  (s : store) : store :=
  mkStore (users s) (interactions s) (user_interactions s)
          (tickets s) (purchase_forms s) (f (screenshots s)).

(** Key given to the next row of an AUTOINCREMENT table. *)
Definition next_rowid {A} (rows : list A) : Z := Z.of_nat (length rows) + 1.

(** ** DatabaseManager *)

(** [init_database] on a fresh file: six empty tables. *)
Definition init_database : store := mkStore ∅ [] [] [] [] ∅.

(** Column defaults of [users]. *)
Definition new_user : user := mkUser None 10 None None false false.

Definition get_user (s : store) (telegram_id : Z) : option user :=
  users s !! telegram_id.

Definition create_user (s : store) (telegram_id : Z) : store * bool :=
  match users s !! telegram_id with
  | Some _ => (s, false)
  | None => (set_users (insert telegram_id new_user) s, true)
  end.

Definition add_balance (amount : Z) (u : user) : user :=
  mkUser (instagram_username u) (coin_balance u + amount)
         (secondary_profile_1 u) (secondary_profile_2 u)
         (secondary_profile_1_verified u) (secondary_profile_2_verified u).

(** The UPDATE touches the row of [telegram_id] if there is one;
    [rowcount > 0] tells whether there was. *)
Definition update_user_balance (s : store) (telegram_id amount : Z)
  : store * bool :=
  (set_users (alter (add_balance amount) telegram_id) s,
   bool_decide (is_Some (users s !! telegram_id))).

Definition set_primary (username : string) (u : user) : user :=
  mkUser (Some username) (coin_balance u)
         (secondary_profile_1 u) (secondary_profile_2 u)
         (secondary_profile_1_verified u) (secondary_profile_2_verified u).
Definition set_secondary_1 (username : string) (u : user) : user :=
  mkUser (instagram_username u) (coin_balance u)
         (Some username) (secondary_profile_2 u)
         (secondary_profile_1_verified u) (secondary_profile_2_verified u).
Definition set_secondary_2 (username : string) (u : user) : user :=
  mkUser (instagram_username u) (coin_balance u)
         (secondary_profile_1 u) (Some username)
         (secondary_profile_1_verified u) (secondary_profile_2_verified u).

(** With an unknown [profile_type] no statement runs and [rowcount] is
    [-1]. *)
Definition set_user_profile (s : store) (telegram_id : Z) (username : string)
  (profile_type : string) : store * bool :=
  let found := bool_decide (is_Some (users s !! telegram_id)) in
  if String.eqb profile_type "primary" then
    (set_users (alter (set_primary username) telegram_id) s, found)
  else if String.eqb profile_type "secondary_1" then
    (set_users (alter (set_secondary_1 username) telegram_id) s, found)
  else if String.eqb profile_type "secondary_2" then
    (set_users (alter (set_secondary_2 username) telegram_id) s, found)
  else (s, false).

(** A row of the join of [interactions] with the requester's [users]
    row: the interaction and [requester_username]. *)
Definition joined := (interaction * option string)%type.

(** [FROM interactions i JOIN users u ON i.requester_id = u.telegram_id]:
    an interaction whose requester has no [users] row gives no row. *)
Definition join_users (s : store) (i : interaction) : option joined :=
  u ← users s !! requester_id i; Some (i, instagram_username u).

(** The WHERE clause of [get_available_interactions]. *)
Definition available (user_id : Z) (r : joined) : bool :=
  negb (requester_id r.1 =? user_id)
  && String.eqb (status r.1) "active"
  && (completed_count r.1 <? quantity r.1).

(** [LIMIT n]: a negative [n] puts no bound on the number of rows. *)
Definition sql_limit {A} (n : Z) (rows : list A) : list A :=
  if n <? 0 then rows else take (Z.to_nat n) rows.

(** [ORDER BY RANDOM()] is the argument [order]: some rearrangement of
    the selected rows. *)
Definition get_available_interactions (order : list joined → list joined)
  (s : store) (user_id : Z) (limit : Z) : list joined :=
  sql_limit limit
    (order (filter (λ r, available user_id r = true)
                   (omap (join_users s) (interactions s)))).

Definition create_interaction_request (s : store) (user_id : Z)
  (link action : string) (qty cost : Z) : store * Z :=
  let total := qty * cost in
  let interaction_id := next_rowid (interactions s) in
  (set_interactions
     (λ rows, rows ++ [mkInteraction interaction_id user_id link action
                                     qty cost total 0 "active" None]) s,
   interaction_id).

Definition incr_completed (i : interaction) : interaction :=
  mkInteraction (id i) (requester_id i) (post_link i) (action_type i)
                (quantity i) (cost_per_action i) (total_cost i)
                (completed_count i + 1) (status i) (screenshot_id i).

(** [SELECT id FROM user_interactions WHERE user_id = ? AND
    interaction_id = ?] finds a row. *)
Definition already_completed (s : store) (user_id interaction_id : Z) : bool :=
  existsb (λ r, (ui_user_id r =? user_id) && (ui_interaction_id r =? interaction_id))
          (user_interactions s).

Definition complete_interaction (s : store) (user_id interaction_id earnings : Z)
  (profile_type : string) (shot : option string) : store * bool :=
  if already_completed s user_id interaction_id then (s, false)
  else
    let s1 :=
      set_user_interactions
        (λ rows, rows ++ [mkUserInteraction (next_rowid rows) user_id
                            interaction_id shot earnings profile_type]) s in
    let s2 :=
      set_interactions
        (map (λ i, if id i =? interaction_id then incr_completed i else i)) s1 in
    let s3 := set_users (alter (add_balance earnings) user_id) s2 in
    (s3, true).

Definition create_ticket (s : store) (user_id : Z) (message : string)
  : store * Z :=
  let ticket_id := next_rowid (tickets s) in
  (set_tickets (λ rows, rows ++ [mkTicket ticket_id user_id message "open"]) s,
   ticket_id).

Definition create_purchase_form (s : store) (user_id : Z) (name phone : string)
  (coins_requested : Z) (amount_euro : PyFloat.float) : store * Z :=
  let form_id := next_rowid (purchase_forms s) in
  (set_purchase_forms
     (λ rows, rows ++ [mkPurchaseForm form_id user_id name phone
                                      coins_requested amount_euro "pending"]) s,
   form_id).

(** [SELECT * FROM interactions WHERE id = ?] followed by [fetchone]. *)
Definition select_interaction (s : store) (interaction_id : Z)
  : option interaction :=
  find (λ i, id i =? interaction_id) (interactions s).

(** The INSERT into [screenshots]; its key is a declared primary key. *)
Definition insert_screenshot (s : store) (shot : string) (user_id : Z)
  (file_path : string) (interaction_id : Z) : option store :=
  match screenshots s !! shot with
  | Some _ => None
  | None =>
      Some (set_screenshots
              (insert shot (mkScreenshot user_id file_path interaction_id)) s)
  end.

(** ** Costs and earnings *)

Definition ACTION_COSTS : gmap string Z :=
  list_to_map
    [("like", 1); ("follow", 5); ("commento", 6); ("condivisione_story", 10);
     ("visualizzazione_reel", 5); ("salvataggio", 5); ("invio_chat", 1)]%string.

Definition calculate_earnings (cost : Z) (profile_type : string) : Z :=
  if String.eqb profile_type "primary"
  then PyFloat.to_int (PyFloat.int_mul cost PyFloat.f_0_25)
  else PyFloat.to_int (PyFloat.int_mul cost PyFloat.f_0_125).

(** ** Conversation state *)

(** The thirteen conversation states that the source names (it binds them
    from [range(12)]; they are taken here as thirteen distinct states),
    and [ConversationHandler.END]. *)
Inductive conv_state :=
| WAITING_PROFILE | WAITING_INTERACTION_TYPE | WAITING_POST_LINK
| WAITING_QUANTITY | WAITING_SCREENSHOT | WAITING_PURCHASE_NAME
| WAITING_PURCHASE_PHONE | WAITING_PURCHASE_COINS | WAITING_TICKET_MESSAGE
| WAITING_ADMIN_LINK | WAITING_ADMIN_ACTION | WAITING_ADMIN_QUANTITY
| WAITING_ADMIN_COIN
| END.

(** [context.user_data] of one participant.  The modelled handlers write
    five keys, each with values of one type; a field is [None] when the
    key is absent. *)
Record user_data := mkUserData {
  ud_interaction_type : option string;
  ud_post_link : option string;
  ud_purchase_name : option string;
  ud_purchase_phone : option string;
  ud_pending_interaction_id : option Z
}.

(** [context.user_data.clear()]. *)
Definition ud_clear : user_data := mkUserData None None None None None.

Definition ud_set_pending (n : Z) (ud : user_data) : user_data :=
  mkUserData (ud_interaction_type ud) (ud_post_link ud)
             (ud_purchase_name ud) (ud_purchase_phone ud) (Some n).

(** Messages sent back, one constructor per text of the source, with the
    values that the text shows. *)
Inductive reply :=
| InvalidNumber
| MustBePositive
| InsufficientBalance (balance total missing : Z)
| RequestCreated (interaction_id : Z) (action : string) (qty total : Z)
                 (link : string) (new_balance : Z)
| InteractionNotFound
| InteractionCompleted (earnings : Z)
| AlreadyCompleted
| ActionDetails (action : string) (earnings : Z)
                (requester_username : option string) (link : string)
                (keyboard : list string)
| AvailableList (entries : list (string * Z * Z * string))
| NoneAvailable
| AskScreenshot
| SendPhoto
| PendingIdMissing
| ScreenshotCompleted (shot : string) (earnings : Z)
| PurchaseFormSent (name phone : string) (coins : Z) (price : PyFloat.float)
                   (form_id : Z).

(** What a handler leaves behind: a value, or an exception that escapes
    it. *)
Inductive result (A : Type) :=
| Ok (a : A)
| Raise (e : exn).
Arguments Ok {A} a.
Arguments Raise {A} e.

(** ** Handlers *)

(** [int(query.data.split('_')[2])]. *)
Definition callback_id (data : string) : result Z :=
  match PyStr.split data !! 2%nat with
  | None => Raise IndexError
  | Some field =>
      match PyStr.int field with
      | None => Raise ValueError
      | Some n => Ok n
      end
  end.

(** The price of a purchase form. *)
Definition purchase_price (coins_requested : Z) : PyFloat.float :=
  if coins_requested <=? 100 then PyFloat.f_5
  else if coins_requested <=? 250 then PyFloat.f_10
  else if coins_requested <=? 500 then PyFloat.f_18
  else if coins_requested <=? 1000 then PyFloat.f_30
  else PyFloat.int_mul coins_requested PyFloat.f_0_03.

Definition purchase_coins_handler (s : store) (ud : user_data) (user_id : Z)
  (text : string) : store * user_data * result (reply * conv_state) :=
  match PyStr.int text with
  | None => (s, ud, Ok (InvalidNumber, WAITING_PURCHASE_COINS))
  | Some coins_requested =>
      if coins_requested <=? 0
      then (s, ud, Ok (MustBePositive, WAITING_PURCHASE_COINS))
      else
        let price := purchase_price coins_requested in
        match ud_purchase_name ud with
        | None => (s, ud, Raise (KeyError "purchase_name"))
        | Some name =>
            match ud_purchase_phone ud with
            | None => (s, ud, Raise (KeyError "purchase_phone"))
            | Some phone =>
                let '(s', form_id) :=
                  create_purchase_form s user_id name phone
                                       coins_requested price in
                (s', ud_clear,
                 Ok (PurchaseFormSent name phone coins_requested price form_id,
                     END))
            end
        end
  end.

Definition handle_quantity (s : store) (ud : user_data) (user_id : Z)
  (text : string) : store * user_data * result (reply * conv_state) :=
  match PyStr.int (PyStr.strip_str text) with
  | None => (s, ud, Ok (InvalidNumber, WAITING_QUANTITY))
  | Some qty =>
      if qty <=? 0 then (s, ud, Ok (MustBePositive, WAITING_QUANTITY))
      else
        let user := get_user s user_id in
        match ud_interaction_type ud with
        | None => (s, ud, Raise (KeyError "interaction_type"))
        | Some action =>
            match ACTION_COSTS !! action with
            | None => (s, ud, Raise (KeyError action))
            | Some cost =>
                let total := qty * cost in
                match user with
                | None => (s, ud, Raise TypeError)
                | Some u =>
                    if coin_balance u <? total
                    then (s, ud_clear,
                          Ok (InsufficientBalance (coin_balance u) total
                                (total - coin_balance u), END))
                    else
                      let s1 := (update_user_balance s user_id (- total)).1 in
                      match ud_post_link ud with
                      | None => (s1, ud, Raise (KeyError "post_link"))
                      | Some link =>
                          let '(s2, interaction_id) :=
                            create_interaction_request s1 user_id link action
                                                       qty cost in
                          (s2, ud_clear,
                           Ok (RequestCreated interaction_id action qty total
                                 link (coin_balance u - total), END))
                      end
                end
            end
        end
  end.

(** The "Inizia Ora" button: the caller is registered if unknown and is
    shown at most five open requests, each with the earnings of the
    primary profile, the remaining count and the payload of its button. *)
Definition handle_start_earning (order : list joined → list joined)
  (s : store) (user_id : Z) : store * reply :=
  let s' := match get_user s user_id with
            | Some _ => s
            | None => (create_user s user_id).1
            end in
  let found := get_available_interactions order s' user_id 5 in
  match found with
  | [] => (s', NoneAvailable)
  | _ =>
      (s', AvailableList
             (map (λ r : joined,
                     (action_type r.1,
                      calculate_earnings (cost_per_action r.1) "primary",
                      quantity r.1 - completed_count r.1,
                      "do_action_" +:+ PyStr.of_int (id r.1)))
                  found))
  end.

(** The details of one request and the button that completes it: the
    screenshot upload for a cost of 5 or more, the plain confirmation
    below. *)
Definition handle_do_action (s : store) (data : string) : result reply :=
  match callback_id data with
  | Raise e => Raise e
  | Ok interaction_id =>
      match select_interaction s interaction_id ≫= join_users s with
      | None => Ok InteractionNotFound
      | Some (i, requester_username) =>
          let earnings := calculate_earnings (cost_per_action i) "primary" in
          let button :=
            if 5 <=? cost_per_action i
            then "upload_screenshot_" +:+ PyStr.of_int interaction_id
            else "confirm_action_" +:+ PyStr.of_int interaction_id in
          Ok (ActionDetails (action_type i) earnings requester_username
                            (post_link i) [button; "start_earning"])
      end
  end.

(** Completion of an action that needs no screenshot. *)
Definition handle_confirm_action (s : store) (user_id : Z) (data : string)
  : store * result reply :=
  match callback_id data with
  | Raise e => (s, Raise e)
  | Ok interaction_id =>
      match select_interaction s interaction_id with
      | None => (s, Ok InteractionNotFound)
      | Some row =>
          let earnings := calculate_earnings (cost_per_action row) "primary" in
          let '(s', done) :=
            complete_interaction s user_id interaction_id earnings
                                 "primary" None in
          (s', Ok (if done then InteractionCompleted earnings
                   else AlreadyCompleted))
      end
  end.

Definition handle_upload_screenshot (ud : user_data) (data : string)
  : user_data * result (reply * conv_state) :=
  match callback_id data with
  | Raise e => (ud, Raise e)
  | Ok interaction_id =>
      (ud_set_pending interaction_id ud, Ok (AskScreenshot, WAITING_SCREENSHOT))
  end.

(** The photo of the proof.  [stamp] is [datetime.now()] formatted to the
    second, [has_photo] tells whether the message carries a photo. *)
Definition handle_screenshot_upload (s : store) (ud : user_data) (user_id : Z)
  (has_photo : bool) (stamp : string)
  : store * user_data * result (reply * conv_state) :=
  if negb has_photo then (s, ud, Ok (SendPhoto, WAITING_SCREENSHOT))
  else
    match ud_pending_interaction_id ud with
    | None | Some 0 => (s, ud_clear, Ok (PendingIdMissing, END))
    | Some interaction_id =>
        let shot := PyStr.of_int user_id +:+ "_" +:+ PyStr.of_int interaction_id
                    +:+ "_" +:+ stamp in
        let filename := "screenshots/" +:+ shot +:+ ".jpg" in
        match insert_screenshot s shot user_id filename interaction_id with
        | None => (s, ud, Raise IntegrityError)
        | Some s1 =>
            match select_interaction s1 interaction_id with
            | Some row =>
                let earnings :=
                  calculate_earnings (cost_per_action row) "primary" in
                let '(s2, done) :=
                  complete_interaction s1 user_id interaction_id earnings
                                       "primary" (Some shot) in
                (s2, ud_clear,
                 Ok (if done then ScreenshotCompleted shot earnings
                     else AlreadyCompleted, END))
            | None => (s1, ud_clear, Ok (InteractionNotFound, END))
            end
        end
    end.

(** ** Reachable stores *)

(** The stores that the operations of [DatabaseManager], and the INSERT
    of a screenshot, produce from the empty database. *)
Inductive reachable : store → Prop :=
| reach_init : reachable init_database
| reach_create_user s telegram_id :
    reachable s → reachable (create_user s telegram_id).1
| reach_update_user_balance s telegram_id amount :
    reachable s → reachable (update_user_balance s telegram_id amount).1
| reach_set_user_profile s telegram_id username profile_type :
    reachable s →
    reachable (set_user_profile s telegram_id username profile_type).1
| reach_create_interaction_request s user_id link action qty cost :
    reachable s →
    reachable (create_interaction_request s user_id link action qty cost).1
| reach_complete_interaction s user_id interaction_id earnings profile_type shot :
    reachable s →
    reachable (complete_interaction s user_id interaction_id earnings
                                    profile_type shot).1
| reach_create_ticket s user_id message :
    reachable s → reachable (create_ticket s user_id message).1
| reach_create_purchase_form s user_id name phone coins price :
    reachable s →
    reachable (create_purchase_form s user_id name phone coins price).1
| reach_insert_screenshot s s' shot user_id file_path interaction_id :
    reachable s →
    insert_screenshot s shot user_id file_path interaction_id = Some s' →
    reachable s'.

(** The (account, request) pairs of the completion records. *)
Definition completion_pairs (s : store) : list (Z * Z) :=
  map (λ r, (ui_user_id r, ui_interaction_id r)) (user_interactions s).

(** The completion records of one account on one request. *)
Definition completions_of (s : store) (user_id interaction_id : Z)
  : list user_interaction :=
  filter (λ r, ui_user_id r = user_id ∧ ui_interaction_id r = interaction_id)
         (user_interactions s).

(** ** A run of the bot

    Account 1 spends its starting grant of 10 on two follows at 5 each;
    accounts 2, 3 and 4 then press the confirmation of request 1. *)

Definition ud_follow : user_data :=
  mkUserData (Some "follow"%string)
             (Some "https://instagram.com/p/ABC123DEF456/"%string)
             None None None.

Definition run_users : store :=
  let s1 := (create_user init_database 1).1 in
  let s2 := (create_user s1 2).1 in
  let s3 := (create_user s2 3).1 in
  (create_user s3 4).1.

Definition run_created : store := (handle_quantity run_users ud_follow 1 "2").1.1.

Definition run_first : store :=
  (handle_confirm_action run_created 2 "confirm_action_1").1.

Definition run_full : store :=
  (handle_confirm_action run_first 3 "confirm_action_1").1.

Definition run_over : store :=
  (handle_confirm_action run_full 4 "confirm_action_1").1.

(** Account 1 asks for one like at 1; accounts 2 and 3, both shown the
    request while it was open, press its confirmation. *)

Definition ud_like : user_data :=
  mkUserData (Some "like"%string)
             (Some "https://instagram.com/p/ABC123DEF456/"%string)
             None None None.

Definition like_created : store := (handle_quantity run_users ud_like 1 "1").1.1.

Definition like_full : store :=
  (handle_confirm_action like_created 2 "confirm_action_1").1.

Definition like_over : store :=
  (handle_confirm_action like_full 3 "confirm_action_1").1.


(** ** The kernel's binary64, to compare [PyFloat] with *)

(** Significand and exponent of a finite primitive float. *)
Definition prim_value (x : PrimFloat.float) : option (Z * Z) :=
  match Prim2SF x with
  | S754_zero _ => Some (0, 0)
  | S754_finite sign m e => Some (if sign then Z.neg m else Z.pos m, e)
  | _ => None
  end.

(** [m1 * 2 ^ e1 = m2 * 2 ^ e2]. *)
Definition same_value (x : PyFloat.float) (y : option (Z * Z)) : bool :=
  match y with
  | Some (m, e) =>
      let low := Z.min e (PyFloat.Fexp x) in
      PyFloat.Fnum x * 2 ^ (PyFloat.Fexp x - low) =? m * 2 ^ (e - low)
  | None => false
  end.

(** [n * x] computed by the kernel. *)
Definition prim_int_mul (n : Uint63.int) (x : PrimFloat.float)
  : option (Z * Z) :=
  prim_value (PrimFloat.mul (PrimFloat.of_uint63 n) x).

(** What every operation keeps: one completion record at most for an
    account and a request, every request active, no negative counter. *)
Definition store_inv (s : store) : Prop :=
  (∀ user_id interaction_id,
      (length (completions_of s user_id interaction_id) ≤ 1)%nat)
  ∧ (∀ i, i ∈ interactions s → status i = "active"%string)
  ∧ (∀ i, i ∈ interactions s → 0 ≤ completed_count i).

(** ** Administrators and link validation *)

(** [ADMIN_IDS] of [config.py]. *)
Definition ADMIN_IDS : list Z := [123456789; 987654321].

Definition is_admin (user_id : Z) : bool := bool_decide (user_id ∈ ADMIN_IDS).

(** A backtracking matcher for the pieces of the link pattern: each piece
    takes the matcher of what follows it and the text that is left. *)
Module Re.

Fixpoint strip_prefix (p l : list ascii) : option (list ascii) :=
  match p, l with
  | [], _ => Some l
  | a :: p', b :: l' => if Ascii.eqb a b then strip_prefix p' l' else None
  | _ :: _, [] => None
  end.

(** A literal. *)
Definition lit (p : string) (k : list ascii → bool) (l : list ascii) : bool :=
  match strip_prefix (list_ascii_of_string p) l with
  | Some rest => k rest
  | None => false
  end.

(** [(p)?]. *)
Definition opt (p : string) (k : list ascii → bool) (l : list ascii) : bool :=
  lit p k l || k l.

(** [(p1|p2|...)]. *)
Definition alt (ps : list string) (k : list ascii → bool) (l : list ascii)
  : bool :=
  existsb (λ p, lit p k l) ps.

(** [[A-Za-z0-9_-]]. *)
Definition id_char (c : ascii) : bool :=
  let n := nat_of_ascii c in
  ((65 <=? n) && (n <=? 90) || (97 <=? n) && (n <=? 122)
   || (48 <=? n) && (n <=? 57) || (n =? 95) || (n =? 45))%nat.

(** [[A-Za-z0-9_-]+]. *)
Fixpoint plus_id (k : list ascii → bool) (l : list ascii) : bool :=
  match l with
  | c :: l' => id_char c && (plus_id k l' || k l')
  | [] => false
  end.

(** The end of the pattern: [re.match] does not ask for the end of the
    text. *)
Definition accept (l : list ascii) : bool := true.

End Re.

(** [bool(re.match(pattern, link))] for the pattern
    [https?://(www\.)?(instagram\.com|instagr\.am)/(p|reel|tv)/[A-Za-z0-9_-]+/?]. *)
Definition is_valid_instagram_link (link : string) : bool :=
  Re.lit "http" (Re.opt "s" (Re.lit "://" (Re.opt "www."
    (Re.alt ["instagram.com"; "instagr.am"]%string (Re.lit "/"
      (Re.alt ["p"; "reel"; "tv"]%string (Re.lit "/"
        (Re.plus_id (Re.opt "/" Re.accept)))))))))
    (list_ascii_of_string link).

(** ** Commands and the remaining steps of the flows *)

(** Messages of the commands and of the steps modelled below. *)
Inductive notice :=
| Welcome
| WelcomeBack (balance : Z)
| BalanceIs (balance : Z)
| ProfileUsage
| ProfileRegistered (profile_type username : string)
| ProfilesFull
| ProfileError
| TicketUsage
| TicketSent (ticket_id : Z) (message : string)
| ProfileMissing
| HandleMissing
| ChooseKind (balance : Z) (keyboard : list string)
| AskLink
| InvalidLink
| AskQuantity (cost : Z)
| AskPhone
| AskCoins
| Cancelled
| MainMenu (balance : Z)
| BuyCoins
| NotAllowed
| AdminUsage
| NotNumbers
| BadLink
| BadAction
| AdminRequestCreated (interaction_id : Z) (link action : string)
                      (qty cost total : Z)
| UserNotFound
| BalanceUpdated (target old_balance amount new_balance : Z)
| BalanceUpdateFailed
| Stats (total_users active_interactions completed_interactions open_tickets
         pending_purchases total_coins total_screenshots : Z).

Definition ud_set_interaction_type (v : string) (ud : user_data) : user_data :=
  mkUserData (Some v) (ud_post_link ud)
             (ud_purchase_name ud) (ud_purchase_phone ud)
             (ud_pending_interaction_id ud).
Definition ud_set_post_link (v : string) (ud : user_data) : user_data :=
  mkUserData (ud_interaction_type ud) (Some v)
             (ud_purchase_name ud) (ud_purchase_phone ud)
             (ud_pending_interaction_id ud).

(** Truth value of an optional text column: [NULL] and the empty string
    are false. *)
Definition truthy (v : option string) : bool :=
  match v with
  | None | Some EmptyString => false
  | Some _ => true
  end.

(** [get_user], then [create_user] when there is no row: the opening of
    most commands. *)
Definition ensure_user (s : store) (user_id : Z) : store :=
  match get_user s user_id with
  | Some _ => s
  | None => (create_user s user_id).1
  end.

Definition start_command (s : store) (user_id : Z) : store * notice :=
  match get_user s user_id with
  | None => ((create_user s user_id).1, Welcome)
  | Some user => (s, WelcomeBack (coin_balance user))
  end.

Definition balance_command (s : store) (user_id : Z) : store * notice :=
  match get_user s user_id with
  | None => ((create_user s user_id).1, BalanceIs 10)
  | Some user => (s, BalanceIs (coin_balance user))
  end.

(** [s.replace('@', '')]. *)
Fixpoint remove_at (s : string) : string :=
  match s with
  | EmptyString => EmptyString
  | String c s' =>
      if Ascii.eqb c "@" then remove_at s' else String c (remove_at s')
  end.

(** [/profilo <username>]: the slot is chosen from the row read before
    the account is created. *)
Definition profile_command (s : store) (user_id : Z) (args : list string)
  : store * notice :=
  match args with
  | [] => (s, ProfileUsage)
  | arg :: _ =>
      let username := remove_at arg in
      let user := get_user s user_id in
      let s1 := match user with
                | None => (create_user s user_id).1
                | Some _ => s
                end in
      let chosen :=
        match user with
        | Some u =>
            if truthy (instagram_username u) then
              if negb (truthy (secondary_profile_1 u)) then Some "secondary_1"
              else if negb (truthy (secondary_profile_2 u))
                   then Some "secondary_2"
                   else None
            else Some "primary"
        | None => Some "primary"
        end%string in
      match chosen with
      | None => (s1, ProfilesFull)
      | Some profile_type =>
          let '(s2, ok) := set_user_profile s1 user_id username profile_type in
          (s2, if ok then ProfileRegistered profile_type username
               else ProfileError)
      end
  end.

(** [' '.join(args)]. *)
Fixpoint join_space (args : list string) : string :=
  match args with
  | [] => EmptyString
  | [a] => a
  | a :: rest => a +:+ " " +:+ join_space rest
  end.

Definition ticket_command (s : store) (user_id : Z) (args : list string)
  : store * notice :=
  match args with
  | [] => (s, TicketUsage)
  | _ =>
      let message := join_space args in
      let s1 := ensure_user s user_id in
      let '(s2, ticket_id) := create_ticket s1 user_id message in
      (s2, TicketSent ticket_id message)
  end.

(** The payloads of the seven kinds of action, as the keyboard of
    "Ricevi Interazioni" carries them, and the way back. *)
Definition kind_keyboard : list string :=
  ["interaction_type_like"; "interaction_type_follow";
   "interaction_type_commento"; "interaction_type_condivisione_story";
   "interaction_type_visualizzazione_reel"; "interaction_type_salvataggio";
   "interaction_type_invio_chat"; "main_menu"]%string.

Definition handle_receive_interactions (s : store) (user_id : Z) : notice :=
  match get_user s user_id with
  | None => ProfileMissing
  | Some user =>
      if negb (truthy (instagram_username user)) then HandleMissing
      else ChooseKind (coin_balance user) kind_keyboard
  end.

(** [action_type = query.data.split('_')[2]]. *)
Definition handle_interaction_type_selection (ud : user_data) (data : string)
  : user_data * result (notice * conv_state) :=
  match PyStr.split data !! 2%nat with
  | None => (ud, Raise IndexError)
  | Some action => (ud_set_interaction_type action ud,
                    Ok (AskLink, WAITING_POST_LINK))
  end.

(** The link is stored before the cost of the action is looked up. *)
Definition handle_post_link (ud : user_data) (text : string)
  : user_data * result (notice * conv_state) :=
  let link := PyStr.strip_str text in
  if negb (is_valid_instagram_link link)
  then (ud, Ok (InvalidLink, WAITING_POST_LINK))
  else
    let ud1 := ud_set_post_link link ud in
    match ud_interaction_type ud1 with
    | None => (ud1, Raise (KeyError "interaction_type"))
    | Some action =>
        match ACTION_COSTS !! action with
        | None => (ud1, Raise (KeyError action))
        | Some cost => (ud1, Ok (AskQuantity cost, WAITING_QUANTITY))
        end
    end.




Definition handle_main_menu (s : store) (user_id : Z)
  : store * result notice :=
  let s1 := ensure_user s user_id in
  match get_user s1 user_id with
  | Some user => (s1, Ok (MainMenu (coin_balance user)))
  | None => (s1, Raise TypeError)
  end.

(** ** Administrator commands *)

(** [/admin_richiesta <link> <azione> <quantita> <coin>]: the request is
    filed under the first administrator and nobody is debited. *)
Definition admin_request_command (s : store) (user_id : Z) (args : list string)
  : store * notice :=
  if negb (is_admin user_id) then (s, NotAllowed)
  else
    match args with
    | link :: action :: a2 :: a3 :: _ =>
        match PyStr.int a2, PyStr.int a3 with
        | Some qty, Some cost =>
            if negb (is_valid_instagram_link link) then (s, BadLink)
            else if negb (bool_decide (is_Some (ACTION_COSTS !! action)))
            then (s, BadAction)
            else
              match ADMIN_IDS with
              | first_admin :: _ =>
                  let '(s', interaction_id) :=
                    create_interaction_request s first_admin link action
                                               qty cost in
                  (s', AdminRequestCreated interaction_id link action qty cost
                         (qty * cost))
              | [] => (s, NotAllowed)
              end
        | _, _ => (s, NotNumbers)
        end
    | _ => (s, AdminUsage)
    end.

(** [/admin_campagna]: the same checks, then [admin_request_command]. *)
Definition admin_campaign_command (s : store) (user_id : Z)
  (args : list string) : store * notice :=
  if negb (is_admin user_id) then (s, NotAllowed)
  else if (length args <? 4)%nat then (s, AdminUsage)
  else admin_request_command s user_id args.

(** [/admin_coin <user_id> <quantita>]. *)
Definition admin_coin_command (s : store) (user_id : Z) (args : list string)
  : store * notice :=
  if negb (is_admin user_id) then (s, NotAllowed)
  else
    match args with
    | a0 :: a1 :: _ =>
        match PyStr.int a0, PyStr.int a1 with
        | Some target, Some amount =>
            match get_user s target with
            | None => (s, UserNotFound)
            | Some user =>
                let old_balance := coin_balance user in
                let '(s', ok) := update_user_balance s target amount in
                (s', if ok
                     then BalanceUpdated target old_balance amount
                                         (old_balance + amount)
                     else BalanceUpdateFailed)
            end
        | _, _ => (s, NotNumbers)
        end
    | _ => (s, AdminUsage)
    end.

(** [SELECT SUM(coin_balance) FROM users], with [or 0] for no row. *)
Definition total_coins (s : store) : Z :=
  map_fold (λ (_ : Z) (u : user) (acc : Z), coin_balance u + acc) 0 (users s).

Definition count_where {A} (p : A → bool) (rows : list A) : Z :=
  Z.of_nat (length (List.filter p rows)).

Definition admin_stats_command (s : store) (user_id : Z) : notice :=
  if negb (is_admin user_id) then NotAllowed
  else
    Stats (Z.of_nat (size (users s)))
          (count_where (λ i, String.eqb (status i) "active") (interactions s))
          (Z.of_nat (length (user_interactions s)))
          (count_where (λ t, String.eqb (t_status t) "open") (tickets s))
          (count_where (λ f, String.eqb (pf_status f) "pending")
                       (purchase_forms s))
          (total_coins s)
          (Z.of_nat (size (screenshots s))).

(** ** Dispatch of button presses *)

(** What [button_callback] leaves behind. *)
Inductive pressed :=
| Replied (r : reply)
| Noticed (n : notice)
| Failed (e : exn)
| Ignored.

Definition starts_with (p s : string) : bool :=
  bool_decide (is_Some (Re.strip_prefix (list_ascii_of_string p)
                                        (list_ascii_of_string s))).

Definition of_result {A} (f : A → pressed) (r : result A) : pressed :=
  match r with
  | Ok a => f a
  | Raise e => Failed e
  end.

(** The chain of comparisons of [button_callback], in its order. *)
Definition button_callback (order : list joined → list joined) (s : store)
  (ud : user_data) (user_id : Z) (data : string)
  : store * user_data * pressed :=
  if String.eqb data "start_earning" then
    let '(s', r) := handle_start_earning order s user_id in
    (s', ud, Replied r)
  else if String.eqb data "receive_interactions" then
    (s, ud, Noticed (handle_receive_interactions s user_id))
  else if String.eqb data "buy_coins" then (s, ud, Noticed BuyCoins)
  else if starts_with "do_action_" data then
    (s, ud, of_result Replied (handle_do_action s data))
  else if starts_with "interaction_type_" data then
    let '(ud', r) := handle_interaction_type_selection ud data in
    (s, ud', of_result (λ x, Noticed x.1) r)
  else if starts_with "confirm_action_" data then
    let '(s', r) := handle_confirm_action s user_id data in
    (s', ud, of_result Replied r)
  else if starts_with "upload_screenshot_" data then
    let '(ud', r) := handle_upload_screenshot ud data in
    (s, ud', of_result (λ x, Replied x.1) r)
  else if String.eqb data "main_menu" then
    let '(s', r) := handle_main_menu s user_id in
    (s', ud, of_result Noticed r)
  else (s, ud, Ignored).

(** The completion records that name one request. *)
Definition records_of (s : store) (interaction_id : Z)
  : list user_interaction :=
  filter (λ r, ui_interaction_id r = interaction_id) (user_interactions s).

(** ** Decimal text *)

(** The number that a run of decimal digits spells after [acc]. *)
Fixpoint decimal_value (l : list ascii) (acc : Z) : Z :=
  match l with
  | [] => acc
  | c :: l' =>
      match PyStr.digit_of c with
      | Some d => decimal_value l' (10 * acc + d)
      | None => acc
      end
  end.

Definition all_digits (l : list ascii) : bool :=
  forallb (λ c, bool_decide (is_Some (PyStr.digit_of c))) l.

(** No underscore in the text. *)
Definition no_underscore (s : string) : bool :=
  forallb (λ c, negb (Ascii.eqb c "_")) (list_ascii_of_string s).

(** A matcher that, once it accepts a text, accepts every extension of
    it. *)
Definition extends (k : list ascii → bool) : Prop :=
  ∀ l t, k l = true → k (l ++ t) = true.

(** No white space in the text. *)
Definition no_space (l : list ascii) : bool :=
  forallb (λ c, negb (PyStr.is_space c)) l.

(** * Properties *)

(** ** Text and floats on examples *)

Example int_plain : PyStr.int " 42 " = Some 42.
Proof. reflexivity. Qed.
Example int_neg : PyStr.int "-7" = Some (-7).
Proof. reflexivity. Qed.
Example int_bad : PyStr.int "4x" = None.
Proof. reflexivity. Qed.
(** The separator of code 28 is refused by [int] and removed by
    [str.strip()]. *)
Example int_separator :
  PyStr.int (String (ascii_of_nat 28) "5") = None
  ∧ PyStr.int (PyStr.strip_str (String (ascii_of_nat 28) "5")) = Some 5
  ∧ PyStr.int (String (ascii_of_nat 9) "5 ") = Some 5.
Proof. by vm_compute. Qed.
Example split_ex : PyStr.split "confirm_action_12" = ["confirm"; "action"; "12"]%string.
Proof. reflexivity. Qed.
Example f1 : PyFloat.to_int (PyFloat.int_mul 5 PyFloat.f_0_25) = 1.
Proof. reflexivity. Qed.
Example f2 : PyFloat.to_int (PyFloat.int_mul 9007199254740995 PyFloat.f_0_25) = 2251799813685249.
Proof. reflexivity. Qed.
Example f3 : PyFloat.int_mul 1001 PyFloat.f_0_03 = PyFloat.Float 8452693550620999 (-48).
Proof. reflexivity. Qed.

(** The literals and the products of [PyFloat] have the values that the
    kernel's binary64 arithmetic gives. *)
Example literals_agree :
  same_value PyFloat.f_0_25 (prim_value 0x1p-2%float) = true
  ∧ same_value PyFloat.f_0_125 (prim_value 0x1p-3%float) = true
  ∧ same_value PyFloat.f_0_03 (prim_value 0x1.eb851eb851eb8p-6%float) = true
  ∧ same_value PyFloat.f_18 (prim_value 0x1.2p+4%float) = true.
Proof. by vm_compute. Qed.

Example quarter_agrees :
  same_value (PyFloat.int_mul 5 PyFloat.f_0_25)
             (prim_int_mul 5 0x1p-2%float) = true
  ∧ same_value (PyFloat.int_mul 9007199254740993 PyFloat.f_0_25)
               (prim_int_mul 9007199254740993 0x1p-2%float) = true
  ∧ same_value (PyFloat.int_mul 9007199254740995 PyFloat.f_0_25)
               (prim_int_mul 9007199254740995 0x1p-2%float) = true
  ∧ same_value (PyFloat.int_mul 4611686018427387907 PyFloat.f_0_125)
               (prim_int_mul 4611686018427387907 0x1p-3%float) = true.
Proof. by vm_compute. Qed.

Example flat_rate_agrees :
  same_value (PyFloat.int_mul 1001 PyFloat.f_0_03)
             (prim_int_mul 1001 0x1.eb851eb851eb8p-6%float) = true
  ∧ same_value (PyFloat.int_mul 123456789 PyFloat.f_0_03)
               (prim_int_mul 123456789 0x1.eb851eb851eb8p-6%float) = true
  ∧ same_value (PyFloat.int_mul 4611686018427387907 PyFloat.f_0_03)
               (prim_int_mul 4611686018427387907 0x1.eb851eb851eb8p-6%float)
    = true.
Proof. by vm_compute. Qed.


(** ** Earnings *)

Section Earnings.

Import PyFloat.

Lemma digits_small (m : Z) : 0 ≤ m < 2 ^ 53 → (digits m <=? prec) = true.
Proof.
  intros [Hlo Hhi]. unfold digits, prec.
  destruct (Z.eqb_spec m 0) as [->|Hne]; [reflexivity|].
  apply Z.leb_le. rewrite Z.abs_eq by lia.
  assert (Z.log2 m < 53) by (apply Z.log2_lt_pow2; lia). lia.
Qed.

Lemma of_int_exact (n : Z) : 0 ≤ n < 2 ^ 53 → of_int n = Float n 0.
Proof.
  intros H. unfold of_int, round53. by rewrite digits_small.
Qed.

(** A product with a power of two below one is exact, and [int()] of it
    is the floor of the quotient. *)
Lemma to_int_scaled (n k : Z) :
  0 ≤ n < 2 ^ 53 → 0 < k →
  to_int (int_mul n (Float 1 (- k))) = n / 2 ^ k.
Proof.
  intros Hn Hk. unfold int_mul, mul. rewrite of_int_exact by done.
  cbn [Fnum Fexp]. rewrite Z.mul_1_r, Z.add_0_l.
  unfold round53. rewrite digits_small by done.
  unfold to_int. cbn [Fnum Fexp].
  destruct (Z.leb_spec 0 (- k)) as [?|_]; [lia|].
  rewrite Z.opp_involutive. apply Z.quot_div_nonneg; [lia|].
  apply Z.pow_pos_nonneg; lia.
Qed.

Lemma earnings_primary_small (cost : Z) :
  0 ≤ cost < 2 ^ 53 → calculate_earnings cost "primary" = cost / 4.
Proof.
  intros H. unfold calculate_earnings. cbn [String.eqb Ascii.eqb].
  change (if String.eqb "primary" "primary" then ?a else ?b) with a.
  change f_0_25 with (Float 1 (Z.opp 2)). by rewrite (to_int_scaled cost 2).
Qed.

Lemma earnings_secondary_small (cost : Z) (profile_type : string) :
  0 ≤ cost < 2 ^ 53 → profile_type ≠ "primary"%string →
  calculate_earnings cost profile_type = cost / 8.
Proof.
  intros H Hp. unfold calculate_earnings.
  destruct (String.eqb_spec profile_type "primary") as [?|_]; [done|].
  change f_0_125 with (Float 1 (Z.opp 3)). by rewrite (to_int_scaled cost 3).
Qed.

End Earnings.

(** C5 as stated fails: at the price [2 ^ 53 + 3] the conversion to a
    float rounds the price up to [2 ^ 53 + 4] before the product, and the
    primary earnings are one more than the floor of a quarter of the
    price. *)
Lemma calculate_earnings_above_floor :
  0 ≤ 9007199254740995
  ∧ calculate_earnings 9007199254740995 "primary" = 2251799813685249
  ∧ 9007199254740995 / 4 = 2251799813685248
  ∧ calculate_earnings 9007199254740995 "primary" ≠ 9007199254740995 / 4.
Proof. repeat split; [lia | vm_compute; discriminate]. Qed.

(** C5, amended: for every price from 0 to [2 ^ 53] the earnings are the
    floor of a quarter of the price for the primary profile and the floor
    of an eighth of it for any other profile; a price of 5 earns 1 on the
    primary profile. *)
Theorem calculate_earnings_floor (cost : Z) (profile_type : string) :
  0 ≤ cost ≤ 2 ^ 53 →
  calculate_earnings cost "primary" = cost / 4
  ∧ (profile_type ≠ "primary"%string →
     calculate_earnings cost profile_type = cost / 8)
  ∧ calculate_earnings 5 "primary" = 1.
Proof.
  intros [Hlo Hhi].
  destruct (Z.eq_dec cost (2 ^ 53)) as [->|Hne].
  - split; [by vm_compute|]. split; [|by vm_compute].
    intros Hp. unfold calculate_earnings.
    destruct (String.eqb_spec profile_type "primary") as [?|_]; [done|].
    by vm_compute.
  - split; [apply earnings_primary_small; lia|].
    split; [|by vm_compute].
    intros Hp. apply earnings_secondary_small; [lia|done].
Qed.

Lemma calculate_earnings_floor_witness :
  0 ≤ 6 ≤ 2 ^ 53
  ∧ calculate_earnings 6 "primary" = 6 / 4
  ∧ ("secondary_1"%string ≠ "primary"%string →
     calculate_earnings 6 "secondary_1" = 6 / 8)
  ∧ calculate_earnings 5 "primary" = 1.
Proof.
  split; [lia|]. apply (calculate_earnings_floor 6 "secondary_1"). lia.
Defined.

(** ** The store operations, table by table *)

Section Frames.

Lemma already_completed_spec (s : store) (user_id interaction_id : Z) :
  already_completed s user_id interaction_id = true
  ↔ (user_id, interaction_id) ∈ completion_pairs s.
Proof.
  unfold already_completed, completion_pairs.
  rewrite existsb_exists, list_elem_of_fmap. split.
  - intros (r & Hin & Hr). exists r.
    apply andb_prop in Hr as [?%Z.eqb_eq ?%Z.eqb_eq].
    split; [congruence | by apply list_elem_of_In].
  - intros (r & Heq & Hin). exists r. split; [by apply list_elem_of_In|].
    inversion Heq. by rewrite !Z.eqb_refl.
Qed.

Lemma already_completed_none (s : store) (user_id interaction_id : Z) :
  already_completed s user_id interaction_id = false →
  completions_of s user_id interaction_id = [].
Proof.
  unfold already_completed, completions_of.
  induction (user_interactions s) as [|r rows IH]; [done|].
  cbn [existsb]. intros [Hr Hrows]%orb_false_elim.
  rewrite filter_cons. rewrite IH by done.
  case_decide as Hd; [|done]. destruct Hd as [Hu Hi].
  by rewrite Hu, Hi, !Z.eqb_refl in Hr.
Qed.

Lemma complete_interaction_again (s : store) (user_id interaction_id e : Z)
  (pt : string) (shot : option string) :
  (user_id, interaction_id) ∈ completion_pairs s →
  complete_interaction s user_id interaction_id e pt shot = (s, false).
Proof.
  intros H%already_completed_spec. unfold complete_interaction.
  by rewrite H.
Qed.

Lemma select_interaction_none (s : store) (interaction_id : Z) :
  (∀ i, i ∈ interactions s → id i ≠ interaction_id) →
  select_interaction s interaction_id = None.
Proof.
  intros H. unfold select_interaction.
  induction (interactions s) as [|i rows IH]; [done|].
  cbn [find]. destruct (Z.eqb_spec (id i) interaction_id) as [Heq|_].
  - exfalso. apply (H i); [left | done].
  - apply IH. intros j Hj. apply H. by right.
Qed.

Lemma select_interaction_some (s : store) (interaction_id : Z)
  (row : interaction) :
  select_interaction s interaction_id = Some row →
  row ∈ interactions s ∧ id row = interaction_id.
Proof.
  unfold select_interaction. intros [Hin Hid%Z.eqb_eq]%find_some.
  split; [by apply list_elem_of_In | done].
Qed.

(** The UPDATE of the counter reaches the row that the SELECT by key
    finds. *)
Lemma find_incr (rows : list interaction) (interaction_id : Z) :
  find (λ i, id i =? interaction_id)
       (map (λ i, if id i =? interaction_id then incr_completed i else i) rows)
  = incr_completed <$> find (λ i, id i =? interaction_id) rows.
Proof.
  induction rows as [|i rows IH]; [done|]. cbn [map find].
  destruct (Z.eqb_spec (id i) interaction_id) as [Heq|Hne].
  - cbn [incr_completed id]. destruct (Z.eqb_spec (id i) interaction_id); done.
  - destruct (Z.eqb_spec (id i) interaction_id); done.
Qed.

End Frames.

(** ** Invariants of the reachable stores *)

Lemma store_inv_init : store_inv init_database.
Proof.
  repeat split; cbn; intros; try lia; by apply elem_of_nil in H.
Qed.

Lemma store_inv_same (s s' : store) :
  interactions s' = interactions s →
  user_interactions s' = user_interactions s →
  store_inv s → store_inv s'.
Proof.
  unfold store_inv, completions_of. intros -> ->. done.
Qed.

Lemma store_inv_create_interaction_request s user_id link action qty cost :
  store_inv s →
  store_inv (create_interaction_request s user_id link action qty cost).1.
Proof.
  intros (Hone & Hact & Hcnt). unfold store_inv, completions_of. cbn.
  split; [apply Hone|].
  split; intros i [Hi | ->%list_elem_of_singleton]%elem_of_app; auto; cbn; lia.
Qed.

Lemma store_inv_complete_interaction s user_id interaction_id e pt shot :
  store_inv s →
  store_inv (complete_interaction s user_id interaction_id e pt shot).1.
Proof.
  intros (Hone & Hact & Hcnt). unfold complete_interaction.
  destruct (already_completed s user_id interaction_id) eqn:Hdone;
    [by repeat split|].
  unfold store_inv, completions_of. cbn. split; [|split].
  - intros u i. rewrite filter_app, length_app.
    rewrite filter_cons, filter_nil. cbn [ui_user_id ui_interaction_id].
    case_decide as Hd; cbn [length].
    + destruct Hd as [<- <-].
      pose proof (already_completed_none _ _ _ Hdone) as Hnone.
      unfold completions_of in Hnone. rewrite Hnone. cbn. lia.
    + specialize (Hone u i). unfold completions_of in Hone. lia.
  - intros i (j & -> & Hj)%list_elem_of_fmap.
    destruct (id j =? interaction_id); cbn; by apply Hact.
  - intros i (j & -> & Hj)%list_elem_of_fmap.
    specialize (Hcnt j Hj).
    destruct (id j =? interaction_id); cbn; lia.
Qed.

Lemma reachable_inv (s : store) : reachable s → store_inv s.
Proof.
  induction 1 as [ | s t _ IH | s t a _ IH | s t u p _ IH
                   | s u l a q c _ IH | s u i e p sh _ IH
                   | s u m _ IH | s u n p c pr _ IH
                   | s s' sh u f i _ IH Hins ].
  - apply store_inv_init.
  - unfold create_user. destruct (users s !! t); [done|].
    by apply (store_inv_same s).
  - by apply (store_inv_same s).
  - unfold set_user_profile.
    repeat (case_match; [by apply (store_inv_same s)|]). done.
  - by apply store_inv_create_interaction_request.
  - by apply store_inv_complete_interaction.
  - by apply (store_inv_same s).
  - by apply (store_inv_same s).
  - unfold insert_screenshot in Hins. destruct (screenshots s !! sh); [done|].
    inversion Hins. by apply (store_inv_same s).
Qed.

(** ** The handlers stay within the reachable stores *)

Lemma handle_quantity_reachable s ud user_id text :
  reachable s → reachable (handle_quantity s ud user_id text).1.1.
Proof.
  intros Hs. unfold handle_quantity.
  destruct (PyStr.int _) as [qty|]; [|done].
  destruct (qty <=? 0); [done|].
  destruct (ud_interaction_type ud) as [action|]; [|done].
  destruct (ACTION_COSTS !! action) as [cost|]; [|done].
  destruct (get_user s user_id) as [u|]; [|done].
  destruct (coin_balance u <? qty * cost); [done|].
  destruct (ud_post_link ud) as [link|]; cbn [fst].
  - apply (reach_create_interaction_request _ user_id link action qty cost).
    by apply reach_update_user_balance.
  - by apply reach_update_user_balance.
Qed.

Lemma handle_confirm_action_reachable s user_id data :
  reachable s → reachable (handle_confirm_action s user_id data).1.
Proof.
  intros Hs. unfold handle_confirm_action.
  destruct (callback_id data) as [interaction_id|]; [|done].
  destruct (select_interaction s interaction_id) as [row|]; [|done].
  pose proof (reach_complete_interaction s user_id interaction_id
                (calculate_earnings (cost_per_action row) "primary")
                "primary" None Hs) as H.
  by destruct (complete_interaction _ _ _ _ _ _).
Qed.

Lemma handle_screenshot_upload_reachable s ud user_id has_photo stamp :
  reachable s →
  reachable (handle_screenshot_upload s ud user_id has_photo stamp).1.1.
Proof.
  intros Hs. unfold handle_screenshot_upload.
  destruct has_photo; [|done]. cbn [negb].
  destruct (ud_pending_interaction_id ud) as [[|n|n]|]; try done.
  all: destruct (insert_screenshot _ _ _ _ _) as [s1|] eqn:Hins; [|done].
  all: pose proof (reach_insert_screenshot _ _ _ _ _ _ Hs Hins) as Hs1.
  all: destruct (select_interaction s1 _) as [row|]; [|done].
  all: match goal with
       | |- context [complete_interaction ?s' ?u ?i ?e ?p ?sh] =>
           pose proof (reach_complete_interaction s' u i e p sh Hs1) as H;
           by destruct (complete_interaction s' u i e p sh)
       end.
Qed.

Lemma purchase_coins_handler_reachable s ud user_id text :
  reachable s → reachable (purchase_coins_handler s ud user_id text).1.1.
Proof.
  intros Hs. unfold purchase_coins_handler.
  destruct (PyStr.int text) as [coins|]; [|done].
  destruct (coins <=? 0); [done|].
  destruct (ud_purchase_name ud) as [name|]; [|done].
  destruct (ud_purchase_phone ud) as [phone|]; [|done].
  apply (reach_create_purchase_form s user_id name phone coins
           (purchase_price coins) Hs).
Qed.

Lemma handle_start_earning_reachable order s user_id :
  reachable s → reachable (handle_start_earning order s user_id).1.
Proof.
  intros Hs. unfold handle_start_earning.
  assert (reachable (match get_user s user_id with
                     | Some _ => s
                     | None => (create_user s user_id).1
                     end)) as H
    by (destruct (get_user s user_id); [done | by apply reach_create_user]).
  by destruct (get_available_interactions _ _ _ _).
Qed.

Lemma run_users_reachable : reachable run_users.
Proof. repeat apply reach_create_user. apply reach_init. Qed.

Lemma like_over_reachable : reachable like_over.
Proof.
  repeat apply handle_confirm_action_reachable.
  apply handle_quantity_reachable, run_users_reachable.
Qed.

Lemma like_full_reachable : reachable like_full.
Proof.
  repeat apply handle_confirm_action_reachable.
  apply handle_quantity_reachable, run_users_reachable.
Qed.

Lemma run_created_reachable : reachable run_created.
Proof. apply handle_quantity_reachable, run_users_reachable. Qed.

(** ** Exactly-once completion *)

(** C1: in every reachable store an account has at most one completion
    record on a request, and completing again a pair that has its record
    returns [False] (already completed) and leaves the store as it was;
    the confirmation handler answers "already completed" and changes
    nothing either. *)
Theorem completion_exactly_once (s : store) (user_id interaction_id : Z) :
  reachable s →
  (length (completions_of s user_id interaction_id) ≤ 1)%nat
  ∧ ((user_id, interaction_id) ∈ completion_pairs s →
     (∀ earnings profile_type shot,
        complete_interaction s user_id interaction_id earnings
                             profile_type shot = (s, false))
     ∧ (∀ data row,
          callback_id data = Ok interaction_id →
          select_interaction s interaction_id = Some row →
          handle_confirm_action s user_id data = (s, Ok AlreadyCompleted))).
Proof.
  intros Hs. split; [apply (reachable_inv s Hs)|].
  intros Hin. split.
  - intros. by apply complete_interaction_again.
  - intros data row Hdata Hrow. unfold handle_confirm_action.
    rewrite Hdata, Hrow. by rewrite complete_interaction_again.
Qed.

Lemma completion_exactly_once_witness :
  (length (completions_of like_full 2 1) ≤ 1)%nat
  ∧ complete_interaction like_full 2 1 7 "primary" None = (like_full, false)
  ∧ handle_confirm_action like_full 2 "confirm_action_1"
    = (like_full, Ok AlreadyCompleted).
Proof.
  destruct (completion_exactly_once like_full 2 1 like_full_reachable)
    as [Hone Hagain].
  split; [exact Hone|].
  destruct Hagain as [Hstore Hhandler].
  - apply already_completed_spec. vm_compute. reflexivity.
  - split; [apply Hstore|].
    eapply Hhandler; vm_compute; reflexivity.
Defined.

(** ** Closure and the counter *)

(** C2 as stated fails: after the one like of request 1 has been done and
    its counter has reached its quantity, the request is still [active];
    nothing has closed it. *)
Lemma full_request_stays_active :
  reachable like_full
  ∧ interactions like_full
    = [mkInteraction 1 1 "https://instagram.com/p/ABC123DEF456/" "like"
                     1 1 1 1 "active" None]
  ∧ ¬ (∀ i, i ∈ interactions like_full →
         (status i = "closed"%string ↔ completed_count i = quantity i)).
Proof.
  split; [apply like_full_reachable|].
  split; [by vm_compute|].
  intros H.
  specialize (H (mkInteraction 1 1 "https://instagram.com/p/ABC123DEF456/"
                               "like" 1 1 1 1 "active" None)).
  destruct H as [_ H]; [by left|]. by specialize (H eq_refl).
Qed.

(** C2, amended: no operation closes a request.  In every reachable
    store the status of every request is [active], whatever its counter;
    in particular no request whose counter is below its quantity is
    closed. *)
Theorem status_always_active (s : store) (i : interaction) :
  reachable s → i ∈ interactions s →
  status i = "active"%string ∧ status i ≠ "closed"%string.
Proof.
  intros Hs Hi. destruct (reachable_inv s Hs) as (_ & Hact & _).
  rewrite (Hact i Hi). done.
Qed.

Lemma status_always_active_witness :
  status (mkInteraction 1 1 "https://instagram.com/p/ABC123DEF456/" "like"
                        1 1 1 1 "active" None) = "active"%string
  ∧ status (mkInteraction 1 1 "https://instagram.com/p/ABC123DEF456/" "like"
                          1 1 1 1 "active" None) ≠ "closed"%string.
Proof.
  apply (status_always_active like_full); [apply like_full_reachable|].
  vm_compute. left.
Defined.

(** C4 as stated fails: accounts 2 and 3 both complete the one like that
    request 1 asks for, and its counter is 2 against a quantity of 1. *)
Lemma counter_exceeds_quantity :
  reachable like_over
  ∧ interactions like_over
    = [mkInteraction 1 1 "https://instagram.com/p/ABC123DEF456/" "like"
                     1 1 1 2 "active" None]
  ∧ ¬ (∀ i, i ∈ interactions like_over →
         0 ≤ completed_count i ≤ quantity i).
Proof.
  split; [apply like_over_reachable|].
  split; [by vm_compute|].
  intros H.
  specialize (H (mkInteraction 1 1 "https://instagram.com/p/ABC123DEF456/"
                               "like" 1 1 1 2 "active" None)).
  cbn in H. assert (0 ≤ 2 ≤ 1) by (apply H; left). lia.
Qed.

(** C4, amended: in every reachable store the counter of every request is
    at least 0, and a completion by an account that has no record on the
    request adds exactly one to it without looking at the quantity. *)
Theorem completed_count_lower_bound (s : store) (i : interaction) :
  reachable s → i ∈ interactions s →
  0 ≤ completed_count i
  ∧ (∀ user_id earnings profile_type shot,
       select_interaction s (id i) = Some i →
       already_completed s user_id (id i) = false →
       select_interaction
         (complete_interaction s user_id (id i) earnings profile_type shot).1
         (id i)
       = Some (incr_completed i)).
Proof.
  intros Hs Hi. destruct (reachable_inv s Hs) as (_ & _ & Hcnt).
  split; [by apply Hcnt|].
  intros u e p sh Hsel Hnew. unfold complete_interaction. rewrite Hnew.
  unfold select_interaction in *. cbn. by rewrite find_incr, Hsel.
Qed.

Lemma completed_count_lower_bound_witness :
  0 ≤ 1
  ∧ select_interaction
      (complete_interaction like_full 3 1 0 "primary" None).1 1
    = Some (mkInteraction 1 1 "https://instagram.com/p/ABC123DEF456/" "like"
                          1 1 1 2 "active" None).
Proof.
  destruct (completed_count_lower_bound like_full
              (mkInteraction 1 1 "https://instagram.com/p/ABC123DEF456/" "like"
                             1 1 1 1 "active" None) like_full_reachable)
    as [Hlow Hstep].
  - vm_compute. left.
  - split; [exact Hlow|]. apply Hstep; vm_compute; reflexivity.
Defined.

(** ** Completion at the store and at the handlers *)

Lemma alter_absent (f : user → user) (k : Z) (m : gmap Z user) :
  m !! k = None → alter f k m = m.
Proof.
  intros H. apply map_eq. intros j. rewrite lookup_alter.
  case_decide as Hd; [|done]. subst. by rewrite H.
Qed.

(** C10: [complete_interaction] does not ask for the account to exist.
    For an id with no [users] row, a request that exists and no earlier
    record of the pair, it returns [True], appends the completion record
    and adds one to the counter of the request, and the [users] table is
    left as it was: the earnings are credited to nobody. *)
Theorem complete_interaction_unknown_account (s : store)
  (user_id interaction_id earnings : Z) (profile_type : string)
  (shot : option string) (row : interaction) :
  users s !! user_id = None →
  select_interaction s interaction_id = Some row →
  (user_id, interaction_id) ∉ completion_pairs s →
  let r := complete_interaction s user_id interaction_id earnings
                                profile_type shot in
  r.2 = true
  ∧ user_interactions r.1
    = user_interactions s
      ++ [mkUserInteraction (next_rowid (user_interactions s)) user_id
                            interaction_id shot earnings profile_type]
  ∧ select_interaction r.1 interaction_id = Some (incr_completed row)
  ∧ users r.1 = users s.
Proof.
  intros Huser Hrow Hnew. unfold complete_interaction.
  destruct (already_completed s user_id interaction_id) eqn:Hdone.
  { by apply already_completed_spec in Hdone. }
  cbn. repeat split.
  - unfold select_interaction in *. cbn. by rewrite find_incr, Hrow.
  - by apply alter_absent.
Qed.

Lemma complete_interaction_unknown_account_witness :
  (complete_interaction like_created 99 1 25 "primary" None).2 = true
  ∧ user_interactions (complete_interaction like_created 99 1 25 "primary" None).1
    = [mkUserInteraction 1 99 1 None 25 "primary"]
  ∧ select_interaction
      (complete_interaction like_created 99 1 25 "primary" None).1 1
    = Some (mkInteraction 1 1 "https://instagram.com/p/ABC123DEF456/" "like"
                          1 1 1 1 "active" None)
  ∧ users (complete_interaction like_created 99 1 25 "primary" None).1
    = users like_created.
Proof.
  apply (complete_interaction_unknown_account like_created 99 1 25 "primary"
           None (mkInteraction 1 1 "https://instagram.com/p/ABC123DEF456/"
                               "like" 1 1 1 0 "active" None)).
  - vm_compute. reflexivity.
  - vm_compute. reflexivity.
  - intros H%already_completed_spec. vm_compute in H. discriminate.
Defined.

(** C7: for a request id that no request row carries, the confirmation
    handler answers "not found" and returns the store unchanged; the
    screenshot handler, after it has stored the screenshot row, answers
    "not found" too and leaves accounts, requests and completion records
    as they were. *)
Theorem completion_of_unknown_request (s : store) (user_id interaction_id : Z)
  (data : string) :
  callback_id data = Ok interaction_id →
  (∀ i, i ∈ interactions s → id i ≠ interaction_id) →
  handle_confirm_action s user_id data = (s, Ok InteractionNotFound)
  ∧ (∀ ud stamp s1,
       ud_pending_interaction_id ud = Some interaction_id →
       interaction_id ≠ 0 →
       insert_screenshot s
         (PyStr.of_int user_id +:+ "_" +:+ PyStr.of_int interaction_id
          +:+ "_" +:+ stamp) user_id
         ("screenshots/" +:+ (PyStr.of_int user_id +:+ "_"
            +:+ PyStr.of_int interaction_id +:+ "_" +:+ stamp) +:+ ".jpg")
         interaction_id = Some s1 →
       handle_screenshot_upload s ud user_id true stamp
       = (s1, ud_clear, Ok (InteractionNotFound, END))
       ∧ users s1 = users s
       ∧ interactions s1 = interactions s
       ∧ user_interactions s1 = user_interactions s).
Proof.
  intros Hdata Hnone. split.
  - unfold handle_confirm_action.
    by rewrite Hdata, (select_interaction_none s interaction_id Hnone).
  - intros ud stamp s1 Hpend Hnz Hins.
    assert (users s1 = users s ∧ interactions s1 = interactions s
            ∧ user_interactions s1 = user_interactions s) as (Hu & Hi & Hc).
    { unfold insert_screenshot in Hins.
      destruct (screenshots s !! _); [done|]. by inversion Hins. }
    split; [|done].
    unfold handle_screenshot_upload. cbn [negb]. rewrite Hpend.
    destruct interaction_id as [|n|n]; [done| |].
    all: rewrite Hins, (select_interaction_none s1); [done|].
    all: rewrite Hi; exact Hnone.
Qed.

Lemma completion_of_unknown_request_witness :
  handle_confirm_action like_created 2 "confirm_action_7"
  = (like_created, Ok InteractionNotFound)
  ∧ (handle_screenshot_upload like_created (ud_set_pending 7 ud_clear) 2 true
                              "20231201_143022").2
    = Ok (InteractionNotFound, END).
Proof.
  destruct (completion_of_unknown_request like_created 2 7 "confirm_action_7")
    as [Hconfirm Hshot].
  - vm_compute. reflexivity.
  - intros i Hi. vm_compute in Hi.
    apply list_elem_of_singleton in Hi. subst. vm_compute. discriminate.
  - split; [exact Hconfirm|].
    edestruct (Hshot (ud_set_pending 7 ud_clear) "20231201_143022"%string)
      as [Hres _]; [reflexivity | discriminate | vm_compute; reflexivity |].
    by rewrite Hres.
Defined.

(** A confirmation that succeeds records the earnings of the primary
    profile and adds them to the balance of the account. *)
Lemma confirmation_credits_earnings (s : store) (user_id interaction_id : Z)
  (data : string) (row : interaction) (u : user) :
  callback_id data = Ok interaction_id →
  select_interaction s interaction_id = Some row →
  already_completed s user_id interaction_id = false →
  users s !! user_id = Some u →
  let earnings := calculate_earnings (cost_per_action row) "primary" in
  let s' := (handle_confirm_action s user_id data).1 in
  (coin_balance <$> users s' !! user_id) = Some (coin_balance u + earnings)
  ∧ (ui_earnings <$> last (user_interactions s')) = Some earnings.
Proof.
  intros Hdata Hrow Hnew Hu earnings s'. subst s'.
  unfold handle_confirm_action, complete_interaction.
  rewrite Hdata, Hrow, Hnew. cbn. split.
  - by rewrite lookup_alter_eq, Hu.
  - by rewrite last_snoc.
Qed.

(** The run of the bot, step by step: account 2 earns 1 on the follow at
    5 and the request stays open; a second confirmation by account 2 is
    refused and changes nothing; account 3 fills the request. *)
Example run_first_completion :
  (handle_confirm_action run_created 2 "confirm_action_1").2
  = Ok (InteractionCompleted 1)
  ∧ (coin_balance <$> get_user run_first 2) = Some 11
  ∧ (completed_count <$> select_interaction run_first 1) = Some 1.
Proof. by vm_compute. Qed.

Example run_second_attempt :
  handle_confirm_action run_first 2 "confirm_action_1"
  = (run_first, Ok AlreadyCompleted).
Proof. by vm_compute. Qed.

Example run_filled :
  (completed_count <$> select_interaction run_full 1) = Some 2
  ∧ (quantity <$> select_interaction run_full 1) = Some 2
  ∧ get_available_interactions (λ l, l) run_full 4 5 = [].
Proof. by vm_compute. Qed.

(** ** Proof of the action *)

Lemma insert_screenshot_frame (s s1 : store) (shot : string) (user_id : Z)
  (file_path : string) (interaction_id : Z) :
  insert_screenshot s shot user_id file_path interaction_id = Some s1 →
  users s1 = users s ∧ interactions s1 = interactions s
  ∧ user_interactions s1 = user_interactions s.
Proof.
  unfold insert_screenshot. destruct (screenshots s !! shot); [done|].
  intros H. by inversion H.
Qed.

(** C6 as stated fails: request 1 costs 5 for each follow, account 2
    confirms it with no screenshot, and the completion is recorded with
    no proof reference and earns 1. *)
Lemma confirmation_needs_no_proof :
  select_interaction run_created 1
  = Some (mkInteraction 1 1 "https://instagram.com/p/ABC123DEF456/" "follow"
                        2 5 10 0 "active" None)
  ∧ handle_confirm_action run_created 2 "confirm_action_1"
    = (run_first, Ok (InteractionCompleted 1))
  ∧ user_interactions run_first = [mkUserInteraction 1 2 1 None 1 "primary"]
  ∧ user_interactions run_created = [].
Proof. by vm_compute. Qed.

(** C6, amended: the proof requirement lives where the action is offered.
    [handle_do_action] offers the screenshot upload, and not the
    confirmation, for a request that costs 5 or more, and the confirmation
    below 5.  The completion itself never refuses for want of a proof: a
    confirmation of an existing request by an account with no record on it
    is recorded with no proof reference whatever the cost, and so is a
    completion that comes with a screenshot. *)
Theorem proof_gate_at_offer (s : store) (user_id interaction_id : Z)
  (data offer : string) (row : interaction) :
  callback_id data = Ok interaction_id →
  callback_id offer = Ok interaction_id →
  select_interaction s interaction_id = Some row →
  already_completed s user_id interaction_id = false →
  let earnings := calculate_earnings (cost_per_action row) "primary" in
  handle_confirm_action s user_id data
  = ((complete_interaction s user_id interaction_id earnings "primary" None).1,
     Ok (InteractionCompleted earnings))
  ∧ (∀ ud stamp s1,
       ud_pending_interaction_id ud = Some interaction_id →
       interaction_id ≠ 0 →
       insert_screenshot s
         (PyStr.of_int user_id +:+ "_" +:+ PyStr.of_int interaction_id
          +:+ "_" +:+ stamp) user_id
         ("screenshots/" +:+ (PyStr.of_int user_id +:+ "_"
            +:+ PyStr.of_int interaction_id +:+ "_" +:+ stamp) +:+ ".jpg")
         interaction_id = Some s1 →
       (handle_screenshot_upload s ud user_id true stamp).2
       = Ok (ScreenshotCompleted
               (PyStr.of_int user_id +:+ "_" +:+ PyStr.of_int interaction_id
                +:+ "_" +:+ stamp) earnings, END))
  ∧ (∀ requester,
       users s !! requester_id row = Some requester →
       handle_do_action s offer
       = Ok (ActionDetails (action_type row) earnings
               (instagram_username requester) (post_link row)
               [(if 5 <=? cost_per_action row
                 then "upload_screenshot_" +:+ PyStr.of_int interaction_id
                 else "confirm_action_" +:+ PyStr.of_int interaction_id);
                "start_earning"])).
Proof.
  intros Hdata Hoffer Hrow Hnew earnings. repeat split.
  - unfold handle_confirm_action, complete_interaction.
    by rewrite Hdata, Hrow, Hnew.
  - intros ud stamp s1 Hpend Hnz Hins.
    destruct (insert_screenshot_frame _ _ _ _ _ _ Hins) as (Hu & Hi & Hc).
    assert (select_interaction s1 interaction_id = Some row) as Hrow1
      by (unfold select_interaction in *; by rewrite Hi).
    assert (already_completed s1 user_id interaction_id = false) as Hnew1
      by (unfold already_completed in *; by rewrite Hc).
    unfold handle_screenshot_upload. cbn [negb]. rewrite Hpend.
    destruct interaction_id as [|n|n]; [done| |].
    all: rewrite Hins, Hrow1; unfold complete_interaction; by rewrite Hnew1.
  - intros requester Hreq. unfold handle_do_action.
    rewrite Hoffer, Hrow. cbn. unfold join_users. rewrite Hreq. done.
Qed.

Lemma proof_gate_at_offer_witness :
  handle_confirm_action run_created 2 "confirm_action_1"
  = (run_first, Ok (InteractionCompleted 1))
  ∧ handle_do_action run_created "do_action_1"
    = Ok (ActionDetails "follow" 1 None
            "https://instagram.com/p/ABC123DEF456/"
            ["upload_screenshot_1"; "start_earning"])
  ∧ (handle_screenshot_upload run_created (ud_set_pending 1 ud_clear) 2 true
                              "20231201_143022").2
    = Ok (ScreenshotCompleted "2_1_20231201_143022" 1, END).
Proof.
  destruct (proof_gate_at_offer run_created 2 1 "confirm_action_1"
              "do_action_1"
              (mkInteraction 1 1 "https://instagram.com/p/ABC123DEF456/"
                             "follow" 2 5 10 0 "active" None))
    as (Hconfirm & Hshot & Hoffer); try (vm_compute; reflexivity).
  split; [rewrite Hconfirm; vm_compute; reflexivity|]. split.
  - rewrite (Hoffer (add_balance (-10) new_user)); vm_compute; reflexivity.
  - rewrite (Hshot (ud_set_pending 1 ud_clear) "20231201_143022"%string
                   (set_screenshots
                      (insert "2_1_20231201_143022"%string
                         (mkScreenshot 2 "screenshots/2_1_20231201_143022.jpg" 1))
                      run_created)).
    + vm_compute. reflexivity.
    + reflexivity.
    + discriminate.
    + vm_compute. reflexivity.
Defined.

(** ** Creating a request *)

Lemma alter_present (f : user → user) (k : Z) (m : gmap Z user) (u : user) :
  m !! k = Some u → alter f k m = <[k := f u]> m.
Proof.
  intros H. apply map_eq. intros j. rewrite lookup_alter, lookup_insert.
  case_decide as Hd; [|done]. subst. by rewrite H.
Qed.

(** C3: with a positive quantity, a known action and a registered owner,
    [handle_quantity] debits the owner [quantity * cost] and inserts the
    request when the balance covers the total, so a balance equal to the
    total becomes 0; when the balance is below the total it answers
    "insufficient balance" and returns the store unchanged. *)
Theorem request_create_debits_total (s : store) (ud : user_data)
  (user_id : Z) (text : string) (qty cost : Z) (action link : string)
  (u : user) :
  PyStr.int (PyStr.strip_str text) = Some qty →
  0 < qty →
  ud_interaction_type ud = Some action →
  ACTION_COSTS !! action = Some cost →
  ud_post_link ud = Some link →
  users s !! user_id = Some u →
  let total := qty * cost in
  (total ≤ coin_balance u →
   handle_quantity s ud user_id text
   = (mkStore (<[user_id := add_balance (- total) u]> (users s))
              (interactions s
               ++ [mkInteraction (next_rowid (interactions s)) user_id link
                                 action qty cost total 0 "active" None])
              (user_interactions s) (tickets s) (purchase_forms s)
              (screenshots s),
      ud_clear,
      Ok (RequestCreated (next_rowid (interactions s)) action qty total link
                         (coin_balance u - total), END))
   ∧ coin_balance (add_balance (- total) u) = coin_balance u - total)
  ∧ (coin_balance u = total → coin_balance (add_balance (- total) u) = 0)
  ∧ (coin_balance u < total →
     handle_quantity s ud user_id text
     = (s, ud_clear,
        Ok (InsufficientBalance (coin_balance u) total
                                (total - coin_balance u), END))).
Proof.
  intros Hint Hpos Haction Hcost Hlink Huser total. subst total.
  unfold handle_quantity, get_user.
  rewrite Hint, Haction, Hcost, Huser, Hlink.
  destruct (Z.leb_spec qty 0) as [?|_]; [lia|].
  destruct (Z.ltb_spec (coin_balance u) (qty * cost)) as [Hlt|Hge].
  - split; [lia|]. split; [cbn; lia | done].
  - split; [|split; [cbn; lia | lia]].
    intros _. split; [|cbn; lia].
    unfold update_user_balance, create_interaction_request, set_users,
      set_interactions.
    cbn. by rewrite (alter_present _ _ _ u).
Qed.

Lemma request_create_debits_total_witness :
  handle_quantity run_users ud_follow 1 "2"
  = (run_created, ud_clear,
     Ok (RequestCreated 1 "follow" 2 10
           "https://instagram.com/p/ABC123DEF456/" 0, END))
  ∧ (coin_balance <$> get_user run_created 1) = Some 0
  ∧ handle_quantity run_users ud_follow 1 "3"
    = (run_users, ud_clear, Ok (InsufficientBalance 10 15 5, END)).
Proof.
  assert (PyStr.int (PyStr.strip_str "2") = Some 2) as Htwo by reflexivity.
  assert (PyStr.int (PyStr.strip_str "3") = Some 3) as Hthree by reflexivity.
  assert (ACTION_COSTS !! "follow"%string = Some 5) as Hcost by reflexivity.
  assert (users run_users !! 1 = Some new_user) as Huser by reflexivity.
  pose proof (request_create_debits_total run_users ud_follow 1 "2" 2 5
                "follow" "https://instagram.com/p/ABC123DEF456/" new_user
                Htwo eq_refl eq_refl Hcost eq_refl Huser)
    as (Hok & Hzero & _).
  pose proof (request_create_debits_total run_users ud_follow 1 "3" 3 5
                "follow" "https://instagram.com/p/ABC123DEF456/" new_user
                Hthree eq_refl eq_refl Hcost eq_refl Huser)
    as (_ & _ & Hfail).
  split; [|split].
  - destruct Hok as [Hok _]; [vm_compute; discriminate|].
    rewrite Hok. vm_compute. reflexivity.
  - specialize (Hzero eq_refl). vm_compute. reflexivity.
  - rewrite Hfail; [|reflexivity]. vm_compute. reflexivity.
Defined.

(** ** Listing open requests *)

(** Below zero the [LIMIT] of the query bounds nothing: with [-1] the one
    open request of account 1 is returned to account 2.  The code calls
    the method with 5, and its default is 10. *)
Lemma negative_limit_is_no_limit :
  (∀ l : list joined, Permutation ((λ l, l) l) l)
  ∧ length (get_available_interactions (λ l, l) like_created 2 (-1)) = 1%nat
  ∧ ¬ (Z.of_nat (length (get_available_interactions (λ l, l) like_created 2 (-1)))
       ≤ -1).
Proof.
  split; [done|]. split; [by vm_compute|]. vm_compute. intros H. by apply H.
Qed.

(** C8: whatever the caller, the limit and the order that the random
    sort produces, every row returned is a request of the store that is
    [active], has its counter below its quantity and is not owned by the
    caller; and for every limit from zero up the number of rows returned
    is at most the limit. *)
Theorem listing_sound (order : list joined → list joined) (s : store)
  (user_id limit : Z) :
  (∀ l, Permutation (order l) l) →
  (∀ r, r ∈ get_available_interactions order s user_id limit →
        r.1 ∈ interactions s
        ∧ status r.1 = "active"%string
        ∧ completed_count r.1 < quantity r.1
        ∧ requester_id r.1 ≠ user_id)
  ∧ (0 ≤ limit →
     Z.of_nat (length (get_available_interactions order s user_id limit))
     ≤ limit).
Proof.
  intros Hperm. unfold get_available_interactions, sql_limit. split.
  - intros r Hr.
    assert (r ∈ order (filter (λ r, available user_id r = true)
                              (omap (join_users s) (interactions s)))) as Hin.
    { destruct (limit <? 0); [done|].
      apply elem_of_take in Hr as (k & Hk & _).
      by eapply list_elem_of_lookup_2. }
    rewrite (Hperm _) in Hin.
    apply list_elem_of_filter in Hin as [Hav Hin].
    apply list_elem_of_omap in Hin as (i & Hi & Hjoin).
    unfold join_users in Hjoin.
    destruct (users s !! requester_id i); [|done].
    cbn in Hjoin. inversion Hjoin. subst r. cbn [fst].
    unfold available in Hav. cbn [fst] in Hav.
    apply andb_prop in Hav as [[Hown Hact]%andb_prop Hcnt].
    repeat split; [done | by apply String.eqb_eq | lia |].
    apply negb_true_iff, Z.eqb_neq in Hown. done.
  - intros Hlim. destruct (Z.ltb_spec limit 0) as [?|_]; [lia|].
    rewrite length_take. lia.
Qed.

Lemma listing_sound_witness :
  Z.of_nat (length (get_available_interactions (@rev joined) like_created 2 5))
  ≤ 5
  ∧ status (mkInteraction 1 1 "https://instagram.com/p/ABC123DEF456/" "like"
                          1 1 1 0 "active" None) = "active"%string.
Proof.
  destruct (listing_sound (@rev joined) like_created 2 5) as [Hrows Hlen].
  - intros l. symmetry. apply Permutation_rev.
  - split; [apply Hlen; lia|].
    apply (Hrows (mkInteraction 1 1 "https://instagram.com/p/ABC123DEF456/"
                                "like" 1 1 1 0 "active" None, None)).
    vm_compute. left.
Defined.

(** ** Purchase intake *)


(** The rate of the source is the binary64 number nearest to 3/100: 53
    bits, and within half a unit of the last bit. *)
Example rate_is_three_cents :
  PyFloat.f_0_03 = PyFloat.Float 8646911284551352 (-58)
  ∧ 2 ^ 52 ≤ 8646911284551352 < 2 ^ 53
  ∧ 2 * Z.abs (8646911284551352 * 100 - 3 * 2 ^ 58) ≤ 100.
Proof. split; [reflexivity|]. lia. Qed.





(** * Further properties of the code *)

(** ** Accounts *)

Lemma reachable_users (P : user → Prop) :
  P new_user →
  (∀ u amount, P u → P (add_balance amount u)) →
  (∀ u name, P u → P (set_primary name u)) →
  (∀ u name, P u → P (set_secondary_1 name u)) →
  (∀ u name, P u → P (set_secondary_2 name u)) →
  ∀ s, reachable s → ∀ k u, users s !! k = Some u → P u.
Proof.
  intros Hnew Hadd Hp Hs1 Hs2 s Hs.
  induction Hs as [ | s t _ IH | s t a _ IH | s t n p _ IH
                   | s u l a q c _ IH | s u i e p sh _ IH
                   | s u m _ IH | s u n p c pr _ IH
                   | s s' sh u f i _ IH Hins ]; intros k v Hk.
  - cbn in Hk. by rewrite lookup_empty in Hk.
  - unfold create_user in Hk. destruct (users s !! t) eqn:Ht; [by eapply IH|].
    cbn in Hk. apply lookup_insert_Some in Hk as [[_ <-]|[_ Hk]];
      [done | by eapply IH].
  - cbn in Hk. apply lookup_alter_Some in Hk as [(_ & x & Hx & ->)|[_ Hk]];
      [apply Hadd | ]; by eapply IH.
  - unfold set_user_profile in Hk.
    repeat case_match; cbn in Hk; try (by eapply IH).
    all: apply lookup_alter_Some in Hk as [(_ & x & Hx & ->)|[_ Hk]];
      [ | by eapply IH ].
    + apply Hp. by eapply IH.
    + apply Hs1. by eapply IH.
    + apply Hs2. by eapply IH.
  - by eapply IH.
  - unfold complete_interaction in Hk.
    destruct (already_completed s u i); [by eapply IH|]. cbn in Hk.
    apply lookup_alter_Some in Hk as [(_ & x & Hx & ->)|[_ Hk]];
      [apply Hadd | ]; by eapply IH.
  - by eapply IH.
  - by eapply IH.
  - apply insert_screenshot_frame in Hins as (Hu & _). rewrite Hu in Hk.
    by eapply IH.
Qed.

(** X1: no operation verifies a secondary profile.  In every reachable
    store both verified flags of every account are false. *)
Theorem secondary_profiles_never_verified (s : store) (k : Z) (u : user) :
  reachable s → users s !! k = Some u →
  secondary_profile_1_verified u = false
  ∧ secondary_profile_2_verified u = false.
Proof.
  intros Hs. revert k u.
  by apply (reachable_users
              (λ u, secondary_profile_1_verified u = false
                    ∧ secondary_profile_2_verified u = false)).
Qed.

Lemma secondary_profiles_never_verified_witness :
  secondary_profile_1_verified (add_balance (-10) new_user) = false
  ∧ secondary_profile_2_verified (add_balance (-10) new_user) = false.
Proof.
  apply (secondary_profiles_never_verified run_created 1);
    [apply run_created_reachable | vm_compute; reflexivity].
Defined.

Lemma store_eta (s : store) :
  mkStore (users s) (interactions s) (user_interactions s) (tickets s)
          (purchase_forms s) (screenshots s) = s.
Proof. by destruct s. Qed.

Lemma create_user_new (s : store) (k : Z) :
  users s !! k = None →
  create_user s k = (set_users (insert k new_user) s, true).
Proof. intros H. unfold create_user. by rewrite H. Qed.

(** X2: the welcome grant is given once.  [/start] by an unknown account
    creates its row with 10 coins and touches nothing else; [/start] and
    [/bilancio] by a known account return the store as it was and show
    the stored balance, so a second [/start] grants nothing. *)
Theorem welcome_grant_given_once (s : store) (user_id : Z) :
  (∀ u, users s !! user_id = Some u →
        start_command s user_id = (s, WelcomeBack (coin_balance u))
        ∧ balance_command s user_id = (s, BalanceIs (coin_balance u)))
  ∧ (users s !! user_id = None →
     let s' := (start_command s user_id).1 in
     s' = set_users (insert user_id new_user) s
     ∧ start_command s' user_id = (s', WelcomeBack 10)
     ∧ (balance_command s user_id).1 = s').
Proof.
  unfold start_command, balance_command, get_user. split.
  - intros u Hu. by rewrite Hu.
  - intros Hnone. rewrite Hnone. cbn zeta. rewrite create_user_new by done.
    cbn [fst]. repeat split. cbn [users set_users].
    by rewrite lookup_insert_eq.
Qed.

Lemma welcome_grant_given_once_witness :
  start_command run_users 2 = (run_users, WelcomeBack 10)
  ∧ (coin_balance <$> get_user (start_command init_database 7).1 7) = Some 10
  ∧ start_command (start_command init_database 7).1 7
    = ((start_command init_database 7).1, WelcomeBack 10).
Proof.
  destruct (welcome_grant_given_once run_users 2) as [Hknown _].
  destruct (welcome_grant_given_once init_database 7) as [_ Hnew].
  split; [apply (Hknown new_user); reflexivity|].
  destruct Hnew as (Hs & Hagain & _); [reflexivity|].
  split; [by rewrite Hs | exact Hagain].
Defined.

Lemma add_balance_add (a b : Z) (u : user) :
  add_balance b (add_balance a u) = add_balance (a + b) u.
Proof. unfold add_balance. cbn. f_equal. lia. Qed.

Lemma update_user_balance_core (s : store) (k amount : Z) (u : user) :
  users s !! k = Some u →
  update_user_balance s k amount
  = (set_users (insert k (add_balance amount u)) s, true)
  ∧ coin_balance (add_balance amount u) = coin_balance u + amount.
Proof.
  intros Hu. unfold update_user_balance, set_users.
  by rewrite (alter_present _ _ _ u), Hu.
Qed.

(** X3: [update_user_balance] checks no sign and no sufficiency.  On an
    unknown id it returns [False] and the store as it was; on a known id
    it returns [True] and replaces the balance by balance plus amount,
    whatever the sign of the result, leaving every other account alone;
    two updates of one account amount to one update by the sum. *)
Theorem update_user_balance_adds (s : store) (k amount : Z) :
  (users s !! k = None → update_user_balance s k amount = (s, false))
  ∧ (∀ u, users s !! k = Some u →
          update_user_balance s k amount
          = (set_users (insert k (add_balance amount u)) s, true)
          ∧ coin_balance (add_balance amount u) = coin_balance u + amount)
  ∧ (∀ other,
       (update_user_balance (update_user_balance s k amount).1 k other).1
       = (update_user_balance s k (amount + other)).1).
Proof.
  split; [|split].
  - intros Hnone. unfold update_user_balance, set_users.
    rewrite Hnone, alter_absent by done. rewrite store_eta. done.
  - intros u Hu. by apply update_user_balance_core.
  - intros other. unfold update_user_balance, set_users. cbn. f_equal.
    apply map_eq. intros j. rewrite !lookup_alter.
    case_decide; [|done]. subst j. case_decide; [|done].
    destruct (users s !! k); [|done]. cbn. by rewrite add_balance_add.
Qed.

Lemma update_user_balance_adds_witness :
  update_user_balance run_users 99 5 = (run_users, false)
  ∧ (coin_balance <$> get_user (update_user_balance run_users 2 (-25)).1 2)
    = Some (-15).
Proof.
  destruct (update_user_balance_adds run_users 99 5) as (Hnone & _ & _).
  destruct (update_user_balance_adds run_users 2 (-25)) as (_ & Hsome & _).
  split; [by apply Hnone|].
  destruct (Hsome new_user) as [Heq _]; [reflexivity|]. by rewrite Heq.
Defined.

(** X4: only an administrator moves coins with [/admin_coin], and only
    on a registered account.  For any other caller, and for a target with
    no row, the store is returned as it was; for an administrator and a
    registered target the balance becomes balance plus amount, no other
    account changes, and the new balance reported is the one stored. *)
Theorem admin_coin_command_effect (s : store) (user_id : Z)
  (args : list string) :
  (is_admin user_id = false →
   admin_coin_command s user_id args = (s, NotAllowed))
  ∧ (∀ a0 a1 rest target amount,
       is_admin user_id = true →
       args = a0 :: a1 :: rest →
       PyStr.int a0 = Some target → PyStr.int a1 = Some amount →
       (users s !! target = None →
        admin_coin_command s user_id args = (s, UserNotFound))
       ∧ (∀ u, users s !! target = Some u →
               admin_coin_command s user_id args
               = (set_users (insert target (add_balance amount u)) s,
                  BalanceUpdated target (coin_balance u) amount
                                 (coin_balance u + amount))
               ∧ (coin_balance
                    <$> users (admin_coin_command s user_id args).1 !! target)
                 = Some (coin_balance u + amount)
               ∧ (∀ other, other ≠ target →
                    users (admin_coin_command s user_id args).1 !! other
                    = users s !! other))).
Proof.
  unfold admin_coin_command. split.
  - intros Hno. by rewrite Hno.
  - intros a0 a1 rest target amount Hyes -> H0 H1. rewrite Hyes, H0, H1.
    cbn [negb]. unfold get_user. split.
    + intros Hnone. by rewrite Hnone.
    + intros u Hu. rewrite Hu.
      destruct (update_user_balance_core s target amount u Hu) as [-> _].
      cbn [fst users set_users]. repeat split.
      * by rewrite lookup_insert_eq.
      * intros other Hne. by rewrite lookup_insert_ne.
Qed.

Lemma admin_coin_command_effect_witness :
  admin_coin_command run_users 5 ["2"; "100"]%string = (run_users, NotAllowed)
  ∧ admin_coin_command run_users 123456789 ["77"; "100"]%string
    = (run_users, UserNotFound)
  ∧ (admin_coin_command run_users 123456789 ["2"; "-3"]%string).2
    = BalanceUpdated 2 10 (-3) 7.
Proof.
  destruct (admin_coin_command_effect run_users 5 ["2"; "100"]%string)
    as [Hno _].
  destruct (admin_coin_command_effect run_users 123456789
              ["77"; "100"]%string) as [_ Hmiss].
  destruct (admin_coin_command_effect run_users 123456789
              ["2"; "-3"]%string) as [_ Hhit].
  split; [by apply Hno|]. split.
  - by apply (Hmiss "77" "100" [] 77 100)%string.
  - pose proof (Hhit "2" "-3" [] 2 (-3) eq_refl eq_refl eq_refl eq_refl)%string
      as [_ Hu].
    destruct (Hu new_user) as (Heq & _); [reflexivity|]. by rewrite Heq.
Defined.

(** X5: [/profilo] never replaces a handle that is registered and never
    touches the balance.  For a registered account, the row after the
    command keeps the balance and the verified flags and every handle
    that was not empty; once the three handles are set the command
    answers that the profiles are full and returns the store as it was. *)
Theorem profile_command_keeps_handles (s : store) (user_id : Z)
  (args : list string) (u : user) :
  users s !! user_id = Some u →
  (∃ u', users (profile_command s user_id args).1 !! user_id = Some u'
         ∧ coin_balance u' = coin_balance u
         ∧ secondary_profile_1_verified u' = secondary_profile_1_verified u
         ∧ secondary_profile_2_verified u' = secondary_profile_2_verified u
         ∧ (truthy (instagram_username u) = true →
            instagram_username u' = instagram_username u)
         ∧ (truthy (secondary_profile_1 u) = true →
            secondary_profile_1 u' = secondary_profile_1 u)
         ∧ (truthy (secondary_profile_2 u) = true →
            secondary_profile_2 u' = secondary_profile_2 u))
  ∧ (args ≠ [] →
     truthy (instagram_username u) = true →
     truthy (secondary_profile_1 u) = true →
     truthy (secondary_profile_2 u) = true →
     profile_command s user_id args = (s, ProfilesFull)).
Proof.
  intros Hu. unfold profile_command, get_user. split.
  - destruct args as [|arg rest]; [by exists u|]. rewrite Hu.
    destruct (truthy (instagram_username u)) eqn:H0;
      [destruct (truthy (secondary_profile_1 u)) eqn:H1;
       [destruct (truthy (secondary_profile_2 u)) eqn:H2|]|];
      cbn [negb]; unfold set_user_profile; cbn [String.eqb Ascii.eqb Bool.eqb];
      cbn [fst users set_users].
    + by exists u.
    + rewrite lookup_alter_eq, Hu. eexists. split; [done|]. by repeat split.
    + rewrite lookup_alter_eq, Hu. eexists. split; [done|]. by repeat split.
    + rewrite lookup_alter_eq, Hu. eexists. split; [done|]. by repeat split.
  - intros Hargs H0 H1 H2. destruct args as [|arg rest]; [done|].
    by rewrite Hu, H0, H1, H2.
Qed.

Lemma profile_command_keeps_handles_witness :
  (coin_balance
     <$> users (profile_command
                  (profile_command run_users 2 ["@anna"]%string).1 2
                  ["@anna.bis"]%string).1 !! 2) = Some 10
  ∧ (instagram_username
       <$> users (profile_command
                    (profile_command run_users 2 ["@anna"]%string).1 2
                    ["@anna.bis"]%string).1 !! 2) = Some (Some "anna"%string).
Proof.
  destruct (profile_command_keeps_handles
              (profile_command run_users 2 ["@anna"]%string).1 2
              ["@anna.bis"]%string (set_primary "anna" new_user))
    as [(u' & Hu' & Hbal & _ & _ & Hprim & _) _]; [reflexivity|].
  rewrite Hu'. cbn. split; [by rewrite Hbal | by rewrite Hprim].
Defined.

(** ** Requests *)

Lemma reachable_interactions (Q : interaction → Prop) :
  (∀ i, Q i → Q (incr_completed i)) →
  (∀ s user_id link action qty cost,
      Q (mkInteraction (next_rowid (interactions s)) user_id link action
                       qty cost (qty * cost) 0 "active" None)) →
  ∀ s, reachable s → ∀ i, i ∈ interactions s → Q i.
Proof.
  intros Hincr Hnew s Hs.
  induction Hs as [ | s t _ IH | s t a _ IH | s t n p _ IH
                   | s u l a q c _ IH | s u i e p sh _ IH
                   | s u m _ IH | s u n p c pr _ IH
                   | s s' sh u f i _ IH Hins ]; intros j Hj.
  - by apply elem_of_nil in Hj.
  - unfold create_user in Hj. destruct (users s !! t); by apply IH.
  - by apply IH.
  - unfold set_user_profile in Hj. repeat case_match; by apply IH.
  - cbn in Hj. apply elem_of_app in Hj as [Hj | ->%list_elem_of_singleton];
      [by apply IH | apply Hnew].
  - unfold complete_interaction in Hj.
    destruct (already_completed s u i); [by apply IH|]. cbn in Hj.
    apply list_elem_of_fmap in Hj as (x & -> & Hx).
    destruct (id x =? i); [apply Hincr|]; by apply IH.
  - by apply IH.
  - by apply IH.
  - apply insert_screenshot_frame in Hins as (_ & Hi & _). rewrite Hi in Hj.
    by apply IH.
Qed.

(** X6: the reserved total of a request is its quantity times its cost
    for each action, in every reachable store: no operation writes
    [total_cost] after the request is created. *)
Theorem total_cost_is_quantity_times_cost (s : store) (i : interaction) :
  reachable s → i ∈ interactions s →
  total_cost i = quantity i * cost_per_action i.
Proof.
  intros Hs. revert i.
  by apply (reachable_interactions
              (λ i, total_cost i = quantity i * cost_per_action i)).
Qed.

Lemma total_cost_is_quantity_times_cost_witness :
  total_cost (mkInteraction 1 1 "https://instagram.com/p/ABC123DEF456/"
                            "follow" 2 5 10 0 "active" None)
  = quantity (mkInteraction 1 1 "https://instagram.com/p/ABC123DEF456/"
                            "follow" 2 5 10 0 "active" None)
    * cost_per_action (mkInteraction 1 1
                         "https://instagram.com/p/ABC123DEF456/"
                         "follow" 2 5 10 0 "active" None).
Proof.
  apply (total_cost_is_quantity_times_cost run_created);
    [apply run_created_reachable | vm_compute; left].
Defined.

Lemma find_by_position (rows : list interaction) (base : Z) (n : nat)
  (i : interaction) :
  (∀ m j, rows !! m = Some j → id j = base + Z.of_nat m) →
  rows !! n = Some i →
  find (λ j, id j =? id i) rows = Some i.
Proof.
  revert base n. induction rows as [|r rows IH]; intros base n Hpos Hn; [done|].
  cbn [find]. destruct n as [|n].
  - cbn in Hn. inversion Hn. subst. by rewrite Z.eqb_refl.
  - cbn in Hn. pose proof (Hpos 0%nat r eq_refl) as Hr.
    pose proof (Hpos (S n) i Hn) as Hi.
    destruct (Z.eqb_spec (id r) (id i)) as [Heq|_]; [lia|].
    apply (IH (base + 1) n); [|done].
    intros m j Hm. rewrite (Hpos (S m) j Hm). lia.
Qed.

Lemma reachable_positions (s : store) :
  reachable s →
  ∀ n i, interactions s !! n = Some i → id i = Z.of_nat n + 1.
Proof.
  induction 1 as [ | s t _ IH | s t a _ IH | s t n p _ IH
                   | s u l a q c _ IH | s u i e p sh _ IH
                   | s u m _ IH | s u n p c pr _ IH
                   | s s' sh u f i _ IH Hins ]; intros k j Hk.
  - done.
  - unfold create_user in Hk. destruct (users s !! t); by apply IH.
  - by apply IH.
  - unfold set_user_profile in Hk. repeat case_match; by apply IH.
  - cbn in Hk. apply lookup_app_Some in Hk as [Hk | [Hlen Hk]];
      [by apply IH|].
    apply list_lookup_singleton_Some in Hk as [Hz <-]. cbn.
    unfold next_rowid. lia.
  - unfold complete_interaction in Hk.
    destruct (already_completed s u i); [by apply IH|]. cbn in Hk.
    rewrite list_lookup_fmap in Hk.
    destruct (interactions s !! k) as [x|] eqn:Hx; [|done].
    cbn in Hk. inversion Hk. specialize (IH k x Hx).
    by destruct (id x =? i).
  - by apply IH.
  - by apply IH.
  - apply insert_screenshot_frame in Hins as (_ & Hi & _). rewrite Hi in Hk.
    by apply IH.
Qed.

Lemma reachable_select (s : store) (i : interaction) :
  reachable s → i ∈ interactions s → select_interaction s (id i) = Some i.
Proof.
  intros Hs Hi. pose proof (reachable_positions s Hs) as Hpos.
  apply list_elem_of_lookup in Hi as [n Hn].
  unfold select_interaction. apply (find_by_position _ 1 n); [|done].
  intros m j Hm. rewrite (Hpos m j Hm). lia.
Qed.

(** X7: request ids are the positions of the rows.  In every reachable
    store the n-th request carries the id n, so two requests with one id
    are the same row, the lookup by id returns the request itself, and
    the id handed out next is carried by no request yet. *)
Theorem request_ids_are_positions (s : store) (i : interaction) :
  reachable s → i ∈ interactions s →
  1 ≤ id i ≤ Z.of_nat (length (interactions s))
  ∧ interactions s !! Z.to_nat (id i - 1) = Some i
  ∧ select_interaction s (id i) = Some i
  ∧ (∀ j, j ∈ interactions s → id j = id i → j = i)
  ∧ id i ≠ next_rowid (interactions s).
Proof.
  intros Hs Hi. pose proof (reachable_positions s Hs) as Hpos.
  apply list_elem_of_lookup in Hi as [n Hn].
  pose proof (Hpos n i Hn) as Hid.
  pose proof (lookup_lt_Some _ _ _ Hn) as Hlt.
  assert (Z.to_nat (id i - 1) = n) as Hback by lia.
  split; [lia|]. split; [by rewrite Hback|]. split; [|split].
  - unfold select_interaction. apply (find_by_position _ 1 n); [|done].
    intros m j Hm. rewrite (Hpos m j Hm). lia.
  - intros j [m Hm]%list_elem_of_lookup Heq.
    pose proof (Hpos m j Hm). assert (m = n) by lia. subst. congruence.
  - unfold next_rowid. lia.
Qed.

Lemma request_ids_are_positions_witness :
  select_interaction run_created 1
  = Some (mkInteraction 1 1 "https://instagram.com/p/ABC123DEF456/"
                        "follow" 2 5 10 0 "active" None).
Proof.
  destruct (request_ids_are_positions run_created
              (mkInteraction 1 1 "https://instagram.com/p/ABC123DEF456/"
                             "follow" 2 5 10 0 "active" None))
    as (_ & _ & Hsel & _);
    [apply run_created_reachable | vm_compute; left | exact Hsel].
Defined.

Lemma records_of_append (s : store) (k : Z) (r : user_interaction) :
  length (filter (λ x, ui_interaction_id x = k) (user_interactions s ++ [r]))
  = (length (records_of s k)
     + if bool_decide (ui_interaction_id r = k) then 1 else 0)%nat.
Proof.
  unfold records_of. rewrite filter_app, length_app, filter_cons, filter_nil.
  case_decide; by case_bool_decide.
Qed.

Lemma records_of_complete (s : store) (u k e : Z) (p : string)
  (sh : option string) (j : Z) :
  already_completed s u k = false →
  length (records_of (complete_interaction s u k e p sh).1 j)
  = (length (records_of s j) + if bool_decide (k = j) then 1 else 0)%nat.
Proof.
  intros H. unfold complete_interaction. rewrite H.
  unfold records_of at 1. cbn [fst user_interactions set_users
    set_interactions set_user_interactions].
  by rewrite records_of_append.
Qed.

(** X8: the counter of a request never runs ahead of the records.  In
    every reachable store the counter of each request is at most the
    number of completion records that name its id. *)
Theorem counter_backed_by_records (s : store) (i : interaction) :
  reachable s → i ∈ interactions s →
  completed_count i ≤ Z.of_nat (length (records_of s (id i))).
Proof.
  intros Hs. revert i.
  induction Hs as [ | s t _ IH | s t a _ IH | s t n p _ IH
                   | s u l a q c _ IH | s u k e p sh _ IH
                   | s u m _ IH | s u n p c pr _ IH
                   | s s' sh u f k _ IH Hins ]; intros j Hj.
  - by apply elem_of_nil in Hj.
  - unfold create_user in *. destruct (users s !! t); by apply IH.
  - by apply IH.
  - unfold set_user_profile in *. repeat case_match; by apply IH.
  - cbn in Hj. apply elem_of_app in Hj as [Hj | ->%list_elem_of_singleton].
    + by apply IH.
    + cbn. lia.
  - destruct (already_completed s u k) eqn:Hdone.
    { unfold complete_interaction in *. rewrite Hdone in *. by apply IH. }
    rewrite (records_of_complete _ _ _ _ _ _ _ Hdone).
    unfold complete_interaction in Hj. rewrite Hdone in Hj. cbn in Hj.
    apply list_elem_of_fmap in Hj as (x & -> & Hx).
    specialize (IH x Hx).
    destruct (Z.eqb_spec (id x) k) as [Hk|Hk].
    + cbn [incr_completed id completed_count].
      rewrite bool_decide_eq_true_2 by done. lia.
    + lia.
  - by apply IH.
  - by apply IH.
  - apply insert_screenshot_frame in Hins as (_ & Hi & Hc).
    unfold records_of. rewrite Hc. rewrite Hi in Hj. by apply IH.
Qed.

Lemma counter_backed_by_records_witness :
  completed_count (mkInteraction 1 1 "https://instagram.com/p/ABC123DEF456/"
                                 "like" 1 1 1 2 "active" None)
  ≤ Z.of_nat (length (records_of like_over 1)).
Proof.
  apply (counter_backed_by_records like_over
           (mkInteraction 1 1 "https://instagram.com/p/ABC123DEF456/"
                          "like" 1 1 1 2 "active" None));
    [apply like_over_reachable | vm_compute; left].
Defined.

(** ** The quantity step *)

(** X9: the debit comes before the link is read.  When the session holds
    the kind of action but no link, a quantity that the balance covers
    is debited and the handler then raises [KeyError]: the coins are
    gone, no request is stored and the session is not cleared. *)
Theorem handle_quantity_debits_before_link (s : store) (ud : user_data)
  (user_id : Z) (text : string) (qty cost : Z) (action : string) (u : user) :
  PyStr.int (PyStr.strip_str text) = Some qty →
  0 < qty →
  ud_interaction_type ud = Some action →
  ACTION_COSTS !! action = Some cost →
  ud_post_link ud = None →
  users s !! user_id = Some u →
  qty * cost ≤ coin_balance u →
  handle_quantity s ud user_id text
  = (set_users (insert user_id (add_balance (- (qty * cost)) u)) s, ud,
     Raise (KeyError "post_link"))
  ∧ interactions (handle_quantity s ud user_id text).1.1 = interactions s.
Proof.
  intros Hint Hpos Haction Hcost Hlink Hu Hcover.
  assert (handle_quantity s ud user_id text
          = (set_users (insert user_id (add_balance (- (qty * cost)) u)) s, ud,
             Raise (KeyError "post_link"))) as Heq.
  { unfold handle_quantity, get_user.
    rewrite Hint, Haction, Hcost, Hu, Hlink.
    destruct (Z.leb_spec qty 0) as [?|_]; [lia|].
    destruct (Z.ltb_spec (coin_balance u) (qty * cost)) as [?|_]; [lia|].
    by destruct (update_user_balance_core s user_id (- (qty * cost)) u Hu)
      as [-> _]. }
  by rewrite Heq.
Qed.

Lemma handle_quantity_debits_before_link_witness :
  (handle_quantity run_users
     (mkUserData (Some "follow"%string) None None None None) 1 "2").2
  = Raise (KeyError "post_link")
  ∧ (coin_balance
       <$> get_user (handle_quantity run_users
                       (mkUserData (Some "follow"%string) None None None None)
                       1 "2").1.1 1) = Some 0.
Proof.
  assert (2 * 5 ≤ coin_balance new_user) as Hcover by (cbn; lia).
  destruct (handle_quantity_debits_before_link run_users
              (mkUserData (Some "follow"%string) None None None None)
              1 "2" 2 5 "follow" new_user
              eq_refl eq_refl eq_refl eq_refl eq_refl eq_refl Hcover)
    as [Heq _].
  rewrite Heq. split; reflexivity.
Defined.

(** X10: the quantity step never overdraws and never touches another
    account.  Whatever the text and the session, every account row after
    [handle_quantity] is the row before it, except that the balance of
    the caller may have gone down, and then not below zero. *)
Theorem handle_quantity_never_overdraws (s : store) (ud : user_data)
  (user_id : Z) (text : string) (k : Z) (u' : user) :
  users (handle_quantity s ud user_id text).1.1 !! k = Some u' →
  ∃ u, users s !! k = Some u
       ∧ (u' = u
          ∨ (k = user_id ∧ ∃ total,
               0 ≤ total ≤ coin_balance u
               ∧ u' = add_balance (- total) u)).
Proof.
  unfold handle_quantity, get_user.
  destruct (PyStr.int _) as [qty|]; [|by eauto].
  destruct (Z.leb_spec qty 0) as [?|Hpos]; [by eauto|].
  destruct (ud_interaction_type ud) as [action|]; [|by eauto].
  destruct (ACTION_COSTS !! action) as [cost|] eqn:Hcost; [|by eauto].
  destruct (users s !! user_id) as [u|] eqn:Hu; [|by eauto].
  destruct (Z.ltb_spec (coin_balance u) (qty * cost)) as [?|Hcover];
    [by eauto|].
  assert (0 ≤ cost) as Hc.
  { unfold ACTION_COSTS in Hcost.
    apply elem_of_list_to_map_2 in Hcost.
    repeat (apply elem_of_cons in Hcost as [Hcost|Hcost];
            [inversion Hcost; lia|]).
    by apply elem_of_nil in Hcost. }
  intros Hk.
  assert (users (update_user_balance s user_id (- (qty * cost))).1 !! k
          = Some u') as Hk'.
  { by destruct (ud_post_link ud). }
  clear Hk. destruct (update_user_balance_core s user_id (- (qty * cost)) u Hu)
    as [Heq _].
  rewrite Heq in Hk'. cbn [fst users set_users] in Hk'.
  apply lookup_insert_Some in Hk' as [[<- <-]|[Hne Hk']].
  - exists u. split; [done|]. right. split; [done|].
    exists (qty * cost). split; [nia | done].
  - eauto.
Qed.

Lemma handle_quantity_never_overdraws_witness :
  ∃ u, users run_users !! 1 = Some u
       ∧ (add_balance (-10) new_user = u
          ∨ (1 = 1 ∧ ∃ total,
               0 ≤ total ≤ coin_balance u
               ∧ add_balance (-10) new_user = add_balance (- total) u)).
Proof.
  apply (handle_quantity_never_overdraws run_users ud_follow 1 "2" 1
           (add_balance (-10) new_user)).
  reflexivity.
Defined.

(** ** Links *)

Section LinkPattern.

Import Re.

Lemma strip_prefix_app (p l r t : list ascii) :
  strip_prefix p l = Some r → strip_prefix p (l ++ t) = Some (r ++ t).
Proof.
  revert l. induction p as [|a p IH]; intros l; cbn.
  - destruct l; intros H; by inversion H.
  - destruct l as [|b l]; [done|]. cbn. destruct (Ascii.eqb a b); [apply IH|done].
Qed.

Lemma lit_extends (p : string) (k : list ascii → bool) :
  extends k → extends (lit p k).
Proof.
  intros Hk l t. unfold lit.
  destruct (strip_prefix _ l) as [r|] eqn:Hr; [|done].
  rewrite (strip_prefix_app _ _ _ t Hr). apply Hk.
Qed.

Lemma opt_extends (p : string) (k : list ascii → bool) :
  extends k → extends (opt p k).
Proof.
  intros Hk l t. unfold opt. intros [H|H]%orb_prop.
  - by rewrite (lit_extends p k Hk l t H).
  - rewrite (Hk l t H). apply orb_true_r.
Qed.

Lemma alt_extends (ps : list string) (k : list ascii → bool) :
  extends k → extends (alt ps k).
Proof.
  intros Hk l t. unfold alt. rewrite !existsb_exists.
  intros (p & Hp & H). exists p. split; [done|]. by apply lit_extends.
Qed.

Lemma plus_id_extends (k : list ascii → bool) :
  extends k → extends (plus_id k).
Proof.
  intros Hk l t. induction l as [|c l IH]; [done|]. cbn.
  intros [Hc [H|H]%orb_prop]%andb_prop; rewrite Hc; cbn.
  - by rewrite IH.
  - rewrite (Hk l t H). apply orb_true_r.
Qed.

Lemma accept_extends : extends accept.
Proof. done. Qed.

Lemma list_ascii_of_string_app (a b : string) :
  list_ascii_of_string (a +:+ b)
  = list_ascii_of_string a ++ list_ascii_of_string b.
Proof.
  induction a as [|c a IH]; [done|].
  change (String c a +:+ b) with (String c (a +:+ b)). cbn. by rewrite IH.
Qed.

End LinkPattern.

(** X11: the link pattern is matched at the start of the text only.
    Every accepted link starts with [http], and a link that is accepted
    stays accepted whatever text is appended to it. *)
Theorem valid_link_extends (link rest : string) :
  is_valid_instagram_link link = true →
  starts_with "http" link = true
  ∧ is_valid_instagram_link (link +:+ rest) = true.
Proof.
  intros H. split.
  - unfold is_valid_instagram_link, Re.lit in H. unfold starts_with.
    destruct (Re.strip_prefix _ _); [done | discriminate].
  - unfold is_valid_instagram_link in *. rewrite list_ascii_of_string_app.
    revert H. generalize (list_ascii_of_string link) as l.
    generalize (list_ascii_of_string rest) as t. intros t l.
    repeat first [ apply lit_extends | apply opt_extends | apply alt_extends
                 | apply plus_id_extends | apply accept_extends ].
Qed.

Lemma valid_link_extends_witness :
  starts_with "http" "https://www.instagram.com/reel/Cx_1-a" = true
  ∧ is_valid_instagram_link
      ("https://www.instagram.com/reel/Cx_1-a" +:+ "/?x=<any text>") = true.
Proof.
  apply (valid_link_extends "https://www.instagram.com/reel/Cx_1-a"
                            "/?x=<any text>").
  reflexivity.
Defined.

(** ** The request flow from the button to the row *)

(** X12: for the kinds like, follow, commento and salvataggio the three
    steps compose.  The kind button, a valid link and a positive quantity
    that the balance covers end with the request stored under the caller
    with the stripped link, the kind, the quantity and the cost of the
    kind from [ACTION_COSTS], the balance debited by quantity times cost
    and the session cleared. *)
Theorem request_flow_composes (s : store) (ud : user_data) (user_id : Z)
  (kind link_text qty_text : string) (qty cost : Z) (u : user) :
  kind ∈ ["like"; "follow"; "commento"; "salvataggio"]%string →
  ACTION_COSTS !! kind = Some cost →
  is_valid_instagram_link (PyStr.strip_str link_text) = true →
  PyStr.int (PyStr.strip_str qty_text) = Some qty →
  0 < qty →
  users s !! user_id = Some u →
  qty * cost ≤ coin_balance u →
  let ud1 := (handle_interaction_type_selection
                ud ("interaction_type_" +:+ kind)).1 in
  let ud2 := (handle_post_link ud1 link_text).1 in
  (handle_post_link ud1 link_text).2 = Ok (AskQuantity cost, WAITING_QUANTITY)
  ∧ handle_quantity s ud2 user_id qty_text
    = (mkStore (<[user_id := add_balance (- (qty * cost)) u]> (users s))
               (interactions s
                ++ [mkInteraction (next_rowid (interactions s)) user_id
                      (PyStr.strip_str link_text) kind qty cost (qty * cost)
                      0 "active" None])
               (user_interactions s) (tickets s) (purchase_forms s)
               (screenshots s),
       ud_clear,
       Ok (RequestCreated (next_rowid (interactions s)) kind qty (qty * cost)
             (PyStr.strip_str link_text) (coin_balance u - qty * cost), END)).
Proof.
  intros Hkind Hcost Hlink Hint Hpos Hu Hcover ud1 ud2.
  assert (ud1 = ud_set_interaction_type kind ud) as Hud1.
  { subst ud1.
    repeat (apply elem_of_cons in Hkind as [->|Hkind]; [reflexivity|]).
    by apply elem_of_nil in Hkind. }
  assert (handle_post_link ud1 link_text
          = (ud_set_post_link (PyStr.strip_str link_text) ud1,
             Ok (AskQuantity cost, WAITING_QUANTITY))) as Hpost.
  { unfold handle_post_link. rewrite Hlink. cbn [negb].
    rewrite Hud1. cbn [ud_interaction_type ud_set_post_link
      ud_set_interaction_type]. by rewrite Hcost. }
  subst ud2. rewrite Hpost. split; [done|]. cbn [fst].
  unfold handle_quantity, get_user. rewrite Hint, Hud1.
  cbn [ud_interaction_type ud_post_link ud_set_post_link
       ud_set_interaction_type].
  rewrite Hcost, Hu.
  destruct (Z.leb_spec qty 0) as [?|_]; [lia|].
  destruct (Z.ltb_spec (coin_balance u) (qty * cost)) as [?|_]; [lia|].
  destruct (update_user_balance_core s user_id (- (qty * cost)) u Hu)
    as [-> _].
  reflexivity.
Qed.

Lemma request_flow_composes_witness :
  (handle_quantity run_users
     (handle_post_link
        (handle_interaction_type_selection ud_clear "interaction_type_follow").1
        " https://instagram.com/p/ABC123DEF456/ ").1
     1 "2").2
  = Ok (RequestCreated 1 "follow" 2 10
          "https://instagram.com/p/ABC123DEF456/" 0, END).
Proof.
  assert (2 * 5 ≤ coin_balance new_user) as Hcover by (cbn; lia).
  assert ("follow"%string ∈ ["like"; "follow"; "commento"; "salvataggio"]%string)
    as Hkind by (right; left).
  destruct (request_flow_composes run_users ud_clear 1 "follow"
              " https://instagram.com/p/ABC123DEF456/ " "2" 2 5 new_user
              Hkind eq_refl eq_refl eq_refl eq_refl eq_refl Hcover)
    as [_ Heq].
  cbn zeta in Heq. apply (f_equal snd) in Heq. exact Heq.
Defined.

(** X13: three of the seven kinds cannot be requested.  The kind step
    keeps the third field of the payload only, so for the buttons of
    condivisione_story, visualizzazione_reel and invio_chat the session
    holds [condivisione], [visualizzazione] and [invio]; a valid link is
    then stored and the lookup of the cost raises [KeyError]. *)
Theorem multiword_kinds_fail (ud : user_data) (data link_text : string) :
  data ∈ ["interaction_type_condivisione_story";
          "interaction_type_visualizzazione_reel";
          "interaction_type_invio_chat"]%string →
  is_valid_instagram_link (PyStr.strip_str link_text) = true →
  data ∈ kind_keyboard
  ∧ ∃ word,
      (handle_interaction_type_selection ud data).1
      = ud_set_interaction_type word ud
      ∧ ACTION_COSTS !! word = None
      ∧ handle_post_link (handle_interaction_type_selection ud data).1
                         link_text
        = (ud_set_post_link (PyStr.strip_str link_text)
             (ud_set_interaction_type word ud),
           Raise (KeyError word)).
Proof.
  intros Hdata Hlink.
  assert (∀ word,
            ACTION_COSTS !! word = None →
            handle_post_link (ud_set_interaction_type word ud) link_text
            = (ud_set_post_link (PyStr.strip_str link_text)
                 (ud_set_interaction_type word ud),
               Raise (KeyError word))) as Hpost.
  { intros word Hword. unfold handle_post_link. rewrite Hlink. cbn [negb].
    cbn [ud_interaction_type ud_set_post_link ud_set_interaction_type].
    by rewrite Hword. }
  repeat (apply elem_of_cons in Hdata as [->|Hdata]).
  - split; [unfold kind_keyboard; set_solver|].
    exists "condivisione"%string. repeat split. by apply Hpost.
  - split; [unfold kind_keyboard; set_solver|].
    exists "visualizzazione"%string. repeat split. by apply Hpost.
  - split; [unfold kind_keyboard; set_solver|].
    exists "invio"%string. repeat split. by apply Hpost.
  - by apply elem_of_nil in Hdata.
Qed.

Lemma multiword_kinds_fail_witness :
  ∃ word,
    (handle_interaction_type_selection ud_clear "interaction_type_invio_chat").1
    = ud_set_interaction_type word ud_clear
    ∧ ACTION_COSTS !! word = None
    ∧ handle_post_link
        (handle_interaction_type_selection ud_clear
           "interaction_type_invio_chat").1
        "https://instagram.com/p/ABC123DEF456/"
      = (ud_set_post_link "https://instagram.com/p/ABC123DEF456/"
           (ud_set_interaction_type word ud_clear),
         Raise (KeyError word)).
Proof.
  apply (multiword_kinds_fail ud_clear "interaction_type_invio_chat"
           "https://instagram.com/p/ABC123DEF456/").
  - right; right; left.
  - reflexivity.
Defined.

(** ** Button payloads *)

Section Decimal.

Import PyStr.

Lemma digit_of_pretty (d : N) :
  (d < 10)%N → digit_of (pretty_N_char d) = Some (Z.of_N d).
Proof.
  intros H.
  assert (d = 0 ∨ d = 1 ∨ d = 2 ∨ d = 3 ∨ d = 4 ∨ d = 5 ∨ d = 6 ∨ d = 7
          ∨ d = 8 ∨ d = 9)%N as Hd by lia.
  repeat (destruct Hd as [->|Hd]; [reflexivity|]). by subst.
Qed.

Lemma digit_not_space (c : ascii) (d : Z) :
  digit_of c = Some d →
  is_space c = false ∧ Ascii.eqb c "_" = false
  ∧ Ascii.eqb c "-" = false ∧ Ascii.eqb c "+" = false.
Proof.
  unfold digit_of, is_space. intros H.
  destruct ((48 <=? nat_of_ascii c)%nat && (nat_of_ascii c <=? 57)%nat)
    eqn:Hc; [|done].
  apply andb_prop in Hc as [Hlo%Nat.leb_le Hhi%Nat.leb_le].
  assert (∀ k, nat_of_ascii k ≠ nat_of_ascii c → Ascii.eqb c k = false)
    as Hne.
  { intros k Hk. apply Ascii.eqb_neq. congruence. }
  repeat split.
  - apply orb_false_intro; apply andb_false_intro2 || apply andb_false_intro1;
      apply Nat.leb_gt; lia.
  - apply Hne. replace (nat_of_ascii "_") with 95%nat by reflexivity. lia.
  - apply Hne. replace (nat_of_ascii "-") with 45%nat by reflexivity. lia.
  - apply Hne. replace (nat_of_ascii "+") with 43%nat by reflexivity. lia.
Qed.

Lemma digits_from_value (l : list ascii) (acc : Z) :
  all_digits l = true → digits_from l acc true = Some (decimal_value l acc).
Proof.
  revert acc. induction l as [|c l IH]; intros acc; [done|]. cbn.
  intros [Hc Hl]%andb_prop. apply bool_decide_eq_true in Hc as [d Hd].
  rewrite Hd. by apply IH.
Qed.

Lemma decimal_value_snoc (l : list ascii) (c : ascii) (d acc : Z) :
  all_digits l = true → digit_of c = Some d →
  decimal_value (l ++ [c]) acc = 10 * decimal_value l acc + d.
Proof.
  revert acc. induction l as [|x l IH]; intros acc Hl Hc; cbn.
  - by rewrite Hc.
  - cbn in Hl. apply andb_prop in Hl as [Hx Hl].
    apply bool_decide_eq_true in Hx as [dx Hdx]. rewrite Hdx. by apply IH.
Qed.

Lemma all_digits_app (l1 l2 : list ascii) :
  all_digits (l1 ++ l2) = all_digits l1 && all_digits l2.
Proof. unfold all_digits. apply forallb_app. Qed.

(** The digits that [pretty] writes in front of what is there. *)
Lemma pretty_go_app (x : N) (s : string) :
  list_ascii_of_string (pretty_N_go x s)
  = list_ascii_of_string (pretty_N_go x "") ++ list_ascii_of_string s.
Proof.
  revert s. induction (N.lt_wf_0 x) as [x _ IH]. intros s.
  destruct (N.eq_dec x 0%N) as [->|Hx]; [by rewrite !pretty_N_go_0|].
  assert (0 < x)%N as Hpos by lia.
  rewrite !(pretty_N_go_step x) by done.
  assert (x `div` 10 < x)%N as Hlt by (by apply N.div_lt).
  rewrite (IH _ Hlt (String _ s)), (IH _ Hlt (String _ "")).
  cbn. by rewrite <- app_assoc.
Qed.

Lemma pretty_go_value (x : N) :
  all_digits (list_ascii_of_string (pretty_N_go x "")) = true
  ∧ decimal_value (list_ascii_of_string (pretty_N_go x "")) 0 = Z.of_N x
  ∧ ((0 < x)%N → list_ascii_of_string (pretty_N_go x "") ≠ []).
Proof.
  induction (N.lt_wf_0 x) as [x _ IH].
  destruct (N.eq_dec x 0%N) as [->|Hx].
  { rewrite pretty_N_go_0. repeat split; (done || lia). }
  assert (0 < x)%N as Hpos by lia.
  rewrite (pretty_N_go_step x) by done.
  assert (x `div` 10 < x)%N as Hlt by (by apply N.div_lt).
  destruct (IH _ Hlt) as (Hall & Hval & _).
  rewrite pretty_go_app. cbn [list_ascii_of_string].
  assert (x `mod` 10 < 10)%N as Hmod by (by apply N.mod_lt).
  pose proof (digit_of_pretty _ Hmod) as Hd.
  repeat split.
  - rewrite all_digits_app, Hall. cbn. rewrite Hd. done.
  - rewrite (decimal_value_snoc _ _ _ _ Hall Hd), Hval.
    pose proof (N.div_mod x 10). lia.
  - intros _ Hnil. by apply app_eq_nil in Hnil as [_ ?].
Qed.

Lemma lstrip_clean (l : list ascii) : no_space l = true → lstrip l = l.
Proof.
  destruct l as [|c l]; [done|]. cbn.
  intros [Hc _]%andb_prop. by apply negb_true_iff in Hc as ->.
Qed.

Lemma strip_clean (l : list ascii) : no_space l = true → strip l = l.
Proof.
  intros H. unfold strip. rewrite (lstrip_clean l H).
  rewrite lstrip_clean, rev_involutive; [done|].
  unfold no_space in *. rewrite forallb_forall in *.
  intros c Hc. apply H. by apply in_rev.
Qed.

(** What [int] skips, [str.strip()] strips as well. *)
Lemma int_space_is_space (c : ascii) :
  is_space c = false → is_int_space c = false.
Proof.
  unfold is_space, is_int_space. intros H.
  apply orb_false_elim in H as [H1 H2].
  apply orb_false_intro; [done|].
  apply Nat.eqb_neq. intros Heq. rewrite Heq in H2. done.
Qed.

Lemma int_lstrip_clean (l : list ascii) :
  no_space l = true → int_lstrip l = l.
Proof.
  destruct l as [|c l]; [done|]. cbn.
  intros [Hc _]%andb_prop. apply negb_true_iff in Hc.
  by rewrite (int_space_is_space c Hc).
Qed.

Lemma int_strip_clean (l : list ascii) :
  no_space l = true → int_strip l = l.
Proof.
  intros H. unfold int_strip. rewrite (int_lstrip_clean l H).
  rewrite int_lstrip_clean, rev_involutive; [done|].
  unfold no_space in *. rewrite forallb_forall in *.
  intros c Hc. apply H. by apply in_rev.
Qed.

Lemma all_digits_no_space (l : list ascii) :
  all_digits l = true → no_space l = true.
Proof.
  unfold all_digits, no_space. rewrite !forallb_forall.
  intros H c Hc. specialize (H c Hc).
  apply bool_decide_eq_true in H as [d Hd].
  by destruct (digit_not_space c d Hd) as (-> & _).
Qed.

Lemma all_digits_no_underscore (l : list ascii) :
  all_digits l = true →
  forallb (λ c, negb (Ascii.eqb c "_")) l = true.
Proof.
  unfold all_digits. rewrite !forallb_forall.
  intros H c Hc. specialize (H c Hc).
  apply bool_decide_eq_true in H as [d Hd].
  by destruct (digit_not_space c d Hd) as (_ & -> & _).
Qed.

(** A text that starts with a digit is read without a sign. *)
Lemma sign_dispatch (c : ascii) (l : list ascii) :
  Ascii.eqb c "-" = false → Ascii.eqb c "+" = false →
  match c :: l with
  | "-"%char :: l0 => Z.opp <$> digits_from l0 0 false
  | "+"%char :: l0 => digits_from l0 0 false
  | l0 => digits_from l0 0 false
  end = digits_from (c :: l) 0 false.
Proof.
  destruct c as [[] [] [] [] [] [] [] []]; cbn; intros; done.
Qed.

Lemma int_of_digits (s : string) :
  all_digits (list_ascii_of_string s) = true →
  list_ascii_of_string s ≠ [] →
  PyStr.int s = Some (decimal_value (list_ascii_of_string s) 0).
Proof.
  intros Hall Hne. unfold PyStr.int.
  rewrite int_strip_clean by (by apply all_digits_no_space).
  destruct (list_ascii_of_string s) as [|c l]; [done|].
  pose proof Hall as Hall'. cbn in Hall'.
  apply andb_prop in Hall' as [Hc Hl].
  apply bool_decide_eq_true in Hc as [d Hd].
  destruct (digit_not_space c d Hd) as (_ & _ & Hm & Hp).
  rewrite sign_dispatch by done. cbn. rewrite Hd.
  by rewrite digits_from_value.
Qed.

Lemma pretty_pos_digits (p : positive) :
  all_digits (list_ascii_of_string (pretty (Z.pos p))) = true
  ∧ list_ascii_of_string (pretty (Z.pos p)) ≠ []
  ∧ decimal_value (list_ascii_of_string (pretty (Z.pos p))) 0 = Z.pos p.
Proof.
  change (pretty (Z.pos p)) with (pretty_N_go (N.pos p) "").
  destruct (pretty_go_value (N.pos p)) as (Hall & Hval & Hne).
  split; [done|]. split; [apply Hne; lia|]. rewrite Hval. done.
Qed.

(** [int(str(n))] is [n]. *)
Lemma int_of_int (n : Z) : PyStr.int (PyStr.of_int n) = Some n.
Proof.
  unfold PyStr.of_int. destruct n as [|p|p]; [reflexivity| |].
  - destruct (pretty_pos_digits p) as (Hall & Hne & Hval).
    by rewrite int_of_digits, Hval.
  - destruct (pretty_pos_digits p) as (Hall & Hne & Hval).
    change (pretty (Z.neg p)) with ("-" +:+ pretty (Z.pos p)).
    unfold PyStr.int.
    change (list_ascii_of_string ("-" +:+ pretty (Z.pos p)))
      with ("-"%char :: list_ascii_of_string (pretty (Z.pos p))).
    rewrite int_strip_clean.
    + destruct (list_ascii_of_string (pretty (Z.pos p))) as [|c l] eqn:Hl;
        [done|].
      pose proof Hall as Hall'. cbn in Hall'.
      apply andb_prop in Hall' as [Hc _].
      apply bool_decide_eq_true in Hc as [d Hd].
      cbn [digits_from]. cbn. rewrite Hd.
      cbn in Hval. rewrite Hd in Hval.
      cbn in Hall. rewrite Hd in Hall. cbn in Hall.
      rewrite digits_from_value by done. cbn. by rewrite Hval.
    + cbn. by apply all_digits_no_space.
Qed.

Lemma of_int_no_underscore (n : Z) : no_underscore (PyStr.of_int n) = true.
Proof.
  unfold PyStr.of_int, no_underscore. destruct n as [|p|p]; [reflexivity| |].
  - destruct (pretty_pos_digits p) as (Hall & _).
    by apply all_digits_no_underscore.
  - destruct (pretty_pos_digits p) as (Hall & _).
    change (pretty (Z.neg p)) with ("-" +:+ pretty (Z.pos p)).
    change (list_ascii_of_string ("-" +:+ pretty (Z.pos p)))
      with ("-"%char :: list_ascii_of_string (pretty (Z.pos p))).
    cbn. by apply all_digits_no_underscore.
Qed.

Lemma rev_app_rev_app (s a b : string) :
  String.rev_app (String.rev_app s a) b = String.rev_app a (s +:+ b).
Proof.
  revert a. induction s as [|c s IH]; intros a; [done|].
  cbn [String.rev_app]. rewrite IH. done.
Qed.

Lemma string_app_nil (s : string) : s +:+ "" = s.
Proof.
  induction s as [|c s IH]; [done|].
  change (String c s +:+ "") with (String c (s +:+ "")). by rewrite IH.
Qed.

Lemma split_us_clean (t cur : string) :
  no_underscore t = true →
  split_us t cur = [String.rev (String.rev_app t cur)].
Proof.
  unfold no_underscore. revert cur.
  induction t as [|c t IH]; intros cur; [done|]. cbn.
  intros [Hc Ht]%andb_prop. apply negb_true_iff in Hc. rewrite Hc.
  by apply IH.
Qed.

Lemma split_clean (t : string) :
  no_underscore t = true → split_us t "" = [t].
Proof.
  intros H. rewrite split_us_clean by done. unfold String.rev.
  by rewrite rev_app_rev_app, string_app_nil.
Qed.

End Decimal.

Lemma callback_id_do_action (n : Z) :
  callback_id ("do_action_" +:+ PyStr.of_int n) = Ok n.
Proof.
  pose proof (split_clean _ (of_int_no_underscore n)) as Hsplit.
  unfold callback_id, PyStr.split.
  change (PyStr.split_us ("do_action_" +:+ PyStr.of_int n) "")
    with ("do"%string :: "action"%string
          :: PyStr.split_us (PyStr.of_int n) "").
  rewrite Hsplit. cbn. by rewrite int_of_int.
Qed.

Lemma callback_id_confirm_action (n : Z) :
  callback_id ("confirm_action_" +:+ PyStr.of_int n) = Ok n.
Proof.
  pose proof (split_clean _ (of_int_no_underscore n)) as Hsplit.
  unfold callback_id, PyStr.split.
  change (PyStr.split_us ("confirm_action_" +:+ PyStr.of_int n) "")
    with ("confirm"%string :: "action"%string
          :: PyStr.split_us (PyStr.of_int n) "").
  rewrite Hsplit. cbn. by rewrite int_of_int.
Qed.

Lemma callback_id_upload_screenshot (n : Z) :
  callback_id ("upload_screenshot_" +:+ PyStr.of_int n) = Ok n.
Proof.
  pose proof (split_clean _ (of_int_no_underscore n)) as Hsplit.
  unfold callback_id, PyStr.split.
  change (PyStr.split_us ("upload_screenshot_" +:+ PyStr.of_int n) "")
    with ("upload"%string :: "screenshot"%string
          :: PyStr.split_us (PyStr.of_int n) "").
  rewrite Hsplit. cbn. by rewrite int_of_int.
Qed.

(** X14: the payload of a button gives back the id it was built from.
    For every integer [n], [int(str(n))] is [n], and the id read from
    [do_action_n], [confirm_action_n] and [upload_screenshot_n] is [n]. *)
Theorem callback_payload_round_trip (n : Z) :
  PyStr.int (PyStr.of_int n) = Some n
  ∧ callback_id ("do_action_" +:+ PyStr.of_int n) = Ok n
  ∧ callback_id ("confirm_action_" +:+ PyStr.of_int n) = Ok n
  ∧ callback_id ("upload_screenshot_" +:+ PyStr.of_int n) = Ok n.
Proof.
  split; [apply int_of_int|].
  split; [apply callback_id_do_action|].
  split; [apply callback_id_confirm_action | apply callback_id_upload_screenshot].
Qed.

Lemma dispatch_confirm (order : list joined → list joined) (s : store)
  (ud : user_data) (user_id : Z) (t : string) :
  button_callback order s ud user_id ("confirm_action_" +:+ t)
  = ((handle_confirm_action s user_id ("confirm_action_" +:+ t)).1, ud,
     of_result Replied
       (handle_confirm_action s user_id ("confirm_action_" +:+ t)).2).
Proof.
  unfold button_callback.
  change (String.eqb ("confirm_action_" +:+ t) "start_earning") with false.
  change (String.eqb ("confirm_action_" +:+ t) "receive_interactions")
    with false.
  change (String.eqb ("confirm_action_" +:+ t) "buy_coins") with false.
  change (starts_with "do_action_" ("confirm_action_" +:+ t)) with false.
  change (starts_with "interaction_type_" ("confirm_action_" +:+ t))
    with false.
  change (starts_with "confirm_action_" ("confirm_action_" +:+ t)) with true.
  cbv iota. by destruct (handle_confirm_action _ _ _).
Qed.

Lemma dispatch_upload (order : list joined → list joined) (s : store)
  (ud : user_data) (user_id : Z) (t : string) :
  button_callback order s ud user_id ("upload_screenshot_" +:+ t)
  = (s, (handle_upload_screenshot ud ("upload_screenshot_" +:+ t)).1,
     of_result (λ x, Replied x.1)
       (handle_upload_screenshot ud ("upload_screenshot_" +:+ t)).2).
Proof.
  unfold button_callback.
  change (String.eqb ("upload_screenshot_" +:+ t) "start_earning") with false.
  change (String.eqb ("upload_screenshot_" +:+ t) "receive_interactions")
    with false.
  change (String.eqb ("upload_screenshot_" +:+ t) "buy_coins") with false.
  change (starts_with "do_action_" ("upload_screenshot_" +:+ t)) with false.
  change (starts_with "interaction_type_" ("upload_screenshot_" +:+ t))
    with false.
  change (starts_with "confirm_action_" ("upload_screenshot_" +:+ t))
    with false.
  change (starts_with "upload_screenshot_" ("upload_screenshot_" +:+ t))
    with true.
  cbv iota. by destruct (handle_upload_screenshot _ _).
Qed.

(** X15: the button that the details of a request offer acts on that
    very request.  For a request of a reachable store whose requester is
    registered, [handle_do_action] on its payload offers one action
    button; pressed by an account with no record on the request, the
    button of a request that costs less than 5 records the completion of
    that request and answers with the earnings, and the button of a
    request that costs 5 or more stores the id of that request as the
    pending one and changes no table. *)
Theorem offered_button_acts_on_request (order : list joined → list joined)
  (s : store) (ud : user_data) (user_id : Z) (i : interaction)
  (requester : user) :
  reachable s → i ∈ interactions s →
  users s !! requester_id i = Some requester →
  already_completed s user_id (id i) = false →
  let earnings := calculate_earnings (cost_per_action i) "primary" in
  ∃ button,
    handle_do_action s ("do_action_" +:+ PyStr.of_int (id i))
    = Ok (ActionDetails (action_type i) earnings
            (instagram_username requester) (post_link i)
            [button; "start_earning"])
    ∧ (cost_per_action i < 5 →
       button_callback order s ud user_id button
       = ((complete_interaction s user_id (id i) earnings "primary" None).1,
          ud, Replied (InteractionCompleted earnings)))
    ∧ (5 ≤ cost_per_action i →
       button_callback order s ud user_id button
       = (s, ud_set_pending (id i) ud, Replied AskScreenshot)).
Proof.
  intros Hs Hi Hreq Hnew earnings.
  pose proof (reachable_select s i Hs Hi) as Hsel.
  pose proof (callback_id_do_action (id i)) as Hdo.
  pose proof (callback_id_confirm_action (id i)) as Hconfirm.
  pose proof (callback_id_upload_screenshot (id i)) as Hupload.
  eexists. split; [|split].
  - unfold handle_do_action. rewrite Hdo, Hsel. cbn. unfold join_users.
    rewrite Hreq. cbn. reflexivity.
  - intros Hcost. destruct (Z.leb_spec 5 (cost_per_action i)) as [?|_]; [lia|].
    rewrite dispatch_confirm. unfold handle_confirm_action.
    rewrite Hconfirm, Hsel. unfold complete_interaction. by rewrite Hnew.
  - intros Hcost. destruct (Z.leb_spec 5 (cost_per_action i)) as [_|?]; [|lia].
    rewrite dispatch_upload. unfold handle_upload_screenshot.
    by rewrite Hupload.
Qed.

Lemma offered_button_acts_on_request_witness :
  ∃ button,
    handle_do_action like_created ("do_action_" +:+ PyStr.of_int 1)
    = Ok (ActionDetails "like" 0 None "https://instagram.com/p/ABC123DEF456/"
            [button; "start_earning"])
    ∧ button_callback (λ l, l) like_created ud_clear 2 button
      = (like_full, ud_clear, Replied (InteractionCompleted 0)).
Proof.
  destruct (offered_button_acts_on_request (λ l, l) like_created ud_clear 2
              (mkInteraction 1 1 "https://instagram.com/p/ABC123DEF456/"
                             "like" 1 1 1 0 "active" None)
              (add_balance (-1) new_user))
    as (button & Hoffer & Hlow & _).
  - apply handle_quantity_reachable, run_users_reachable.
  - vm_compute. left.
  - reflexivity.
  - reflexivity.
  - exists button. split; [exact Hoffer|].
    rewrite Hlow; [reflexivity | cbn; lia].
Defined.

(** ** The screenshot step *)

(** X16: what the screenshot step leaves behind when it does not record
    a completion.  A second upload under the same name (same account,
    request and second) raises [IntegrityError] and changes neither store
    nor session; an upload for a pair that is already recorded is
    answered "already completed", but its screenshot row has been stored:
    the store after it differs from the store before it in that row
    only. *)
Theorem screenshot_step_leftovers (s : store) (ud : user_data)
  (user_id interaction_id : Z) (stamp : string) :
  ud_pending_interaction_id ud = Some interaction_id →
  interaction_id ≠ 0 →
  let shot := PyStr.of_int user_id +:+ "_" +:+ PyStr.of_int interaction_id
              +:+ "_" +:+ stamp in
  (is_Some (screenshots s !! shot) →
   handle_screenshot_upload s ud user_id true stamp
   = (s, ud, Raise IntegrityError))
  ∧ (screenshots s !! shot = None →
     is_Some (select_interaction s interaction_id) →
     (user_id, interaction_id) ∈ completion_pairs s →
     handle_screenshot_upload s ud user_id true stamp
     = (set_screenshots
          (insert shot (mkScreenshot user_id
                          ("screenshots/" +:+ shot +:+ ".jpg") interaction_id))
          s,
        ud_clear, Ok (AlreadyCompleted, END))).
Proof.
  intros Hpend Hnz shot. unfold handle_screenshot_upload. cbn [negb].
  rewrite Hpend. fold shot. split.
  - intros [x Hx]. unfold insert_screenshot. rewrite Hx.
    by destruct interaction_id.
  - intros Hfree [row Hrow] Hpair.
    unfold insert_screenshot. rewrite Hfree.
    set (s1 := set_screenshots _ s).
    assert (select_interaction s1 interaction_id = Some row) as Hrow1
      by done.
    assert (complete_interaction s1 user_id interaction_id
              (calculate_earnings (cost_per_action row) "primary") "primary"
              (Some shot) = (s1, false)) as Hagain
      by (by apply complete_interaction_again).
    destruct interaction_id as [|n|n]; [done| |]; by rewrite Hrow1, Hagain.
Qed.

Lemma screenshot_step_leftovers_witness :
  (handle_screenshot_upload like_full (ud_set_pending 1 ud_clear) 2 true
                            "20231201_143022").2
  = Ok (AlreadyCompleted, END)
  ∧ is_Some (screenshots
               (handle_screenshot_upload like_full (ud_set_pending 1 ud_clear)
                                         2 true "20231201_143022").1.1
             !! "2_1_20231201_143022"%string)
  ∧ handle_screenshot_upload
      (handle_screenshot_upload like_full (ud_set_pending 1 ud_clear)
                                2 true "20231201_143022").1.1
      (ud_set_pending 1 ud_clear) 2 true "20231201_143022"
    = ((handle_screenshot_upload like_full (ud_set_pending 1 ud_clear)
                                 2 true "20231201_143022").1.1,
       ud_set_pending 1 ud_clear, Raise IntegrityError).
Proof.
  assert ((2, 1) ∈ completion_pairs like_full) as Hpair
    by (apply already_completed_spec; reflexivity).
  assert (is_Some (select_interaction like_full 1)) as Hrow
    by (vm_compute; eauto).
  assert ((1 : Z) ≠ 0) as Hnz by discriminate.
  destruct (screenshot_step_leftovers like_full (ud_set_pending 1 ud_clear)
              2 1 "20231201_143022" eq_refl Hnz) as [_ Hdup].
  specialize (Hdup eq_refl Hrow Hpair). rewrite Hdup. cbn [fst snd].
  split; [done|]. split; [vm_compute; eauto|].
  destruct (screenshot_step_leftovers
              (set_screenshots
                 (insert "2_1_20231201_143022"%string
                    (mkScreenshot 2 "screenshots/2_1_20231201_143022.jpg" 1))
                 like_full)
              (ud_set_pending 1 ud_clear) 2 1 "20231201_143022" eq_refl Hnz)
    as [Hraise _].
  apply Hraise. vm_compute. eauto.
Defined.

(** ** What a completion leaves alone *)

(** X17: a completion touches one balance and one counter.  After
    [complete_interaction] every account other than the completing one
    has the row it had, every request keeps its place, id, requester,
    link, kind, quantity, cost, reserved total and status, and only the
    requests with the given id can have their counter moved, by one; the
    tickets, purchase forms and screenshots are the same.  The requester
    is neither charged nor refunded. *)
Theorem complete_interaction_frame (s : store)
  (user_id interaction_id earnings : Z) (profile_type : string)
  (shot : option string) :
  let s' := (complete_interaction s user_id interaction_id earnings
                                  profile_type shot).1 in
  (∀ other, other ≠ user_id → users s' !! other = users s !! other)
  ∧ (∀ n i', interactions s' !! n = Some i' →
       ∃ i, interactions s !! n = Some i
            ∧ id i' = id i ∧ requester_id i' = requester_id i
            ∧ post_link i' = post_link i ∧ action_type i' = action_type i
            ∧ quantity i' = quantity i
            ∧ cost_per_action i' = cost_per_action i
            ∧ total_cost i' = total_cost i ∧ status i' = status i
            ∧ (i' = i
               ∨ (id i = interaction_id
                  ∧ completed_count i' = completed_count i + 1)))
  ∧ length (interactions s') = length (interactions s)
  ∧ tickets s' = tickets s
  ∧ purchase_forms s' = purchase_forms s
  ∧ screenshots s' = screenshots s.
Proof.
  unfold complete_interaction.
  destruct (already_completed s user_id interaction_id).
  { cbn. repeat split; eauto 20. }
  cbn. repeat split.
  - intros other Hne. by rewrite lookup_alter_ne.
  - intros n i' Hn. rewrite list_lookup_fmap in Hn.
    destruct (interactions s !! n) as [i|]; [|done].
    cbn in Hn. inversion Hn. exists i. split; [done|].
    destruct (Z.eqb_spec (id i) interaction_id); cbn; eauto 20.
  - by rewrite length_map.
Qed.

Lemma complete_interaction_frame_witness :
  users (complete_interaction like_created 2 1 0 "primary" None).1 !! 1
  = users like_created !! 1
  ∧ length (interactions (complete_interaction like_created 2 1 0 "primary"
                                               None).1) = 1%nat.
Proof.
  destruct (complete_interaction_frame like_created 2 1 0 "primary" None)
    as (Husers & _ & Hlen & _).
  split; [apply Husers; discriminate | exact Hlen].
Defined.

(** ** What is offered *)

Lemma listed_rows (order : list joined → list joined) (s : store)
  (user_id limit : Z) (r : joined) :
  (∀ l, Permutation (order l) l) →
  r ∈ get_available_interactions order s user_id limit →
  r.1 ∈ interactions s
  ∧ (∃ requester, users s !! requester_id r.1 = Some requester
                  ∧ r.2 = instagram_username requester)
  ∧ requester_id r.1 ≠ user_id
  ∧ status r.1 = "active"%string
  ∧ completed_count r.1 < quantity r.1.
Proof.
  intros Hperm Hr. unfold get_available_interactions, sql_limit in Hr.
  assert (r ∈ order (filter (λ r, available user_id r = true)
                            (omap (join_users s) (interactions s)))) as Hin.
  { destruct (limit <? 0); [done|].
    apply elem_of_take in Hr as (k & Hk & _).
    by eapply list_elem_of_lookup_2. }
  rewrite (Hperm _) in Hin.
  apply list_elem_of_filter in Hin as [Hav Hin].
  apply list_elem_of_omap in Hin as (i & Hi & Hjoin).
  unfold join_users in Hjoin.
  destruct (users s !! requester_id i) as [requester|] eqn:Hreq; [|done].
  cbn in Hjoin. inversion Hjoin. subst r. cbn [fst snd].
  unfold available in Hav. cbn [fst] in Hav.
  apply andb_prop in Hav as [[Hown Hact]%andb_prop Hcnt].
  split; [done|]. split; [by eauto|].
  apply negb_true_iff, Z.eqb_neq in Hown.
  repeat split; [done | by apply String.eqb_eq | lia].
Qed.

Lemma listed_length (order : list joined → list joined) (s : store)
  (user_id limit : Z) :
  0 ≤ limit →
  Z.of_nat (length (get_available_interactions order s user_id limit)) ≤ limit.
Proof.
  intros Hlim. unfold get_available_interactions, sql_limit.
  destruct (Z.ltb_spec limit 0) as [?|_]; [lia|]. rewrite length_take. lia.
Qed.

Lemma ensure_user_tables (s : store) (user_id : Z) :
  interactions (ensure_user s user_id) = interactions s
  ∧ user_interactions (ensure_user s user_id) = user_interactions s
  ∧ is_Some (users (ensure_user s user_id) !! user_id)
  ∧ (∀ k u, users s !! k = Some u →
            users (ensure_user s user_id) !! k = Some u).
Proof.
  unfold ensure_user, get_user, create_user.
  destruct (users s !! user_id) as [u|] eqn:Hu; cbn.
  - repeat split; eauto.
  - repeat split; [by rewrite lookup_insert_eq|].
    intros k v Hk. rewrite lookup_insert_ne; [done|]. congruence.
Qed.

(** X18: what "Inizia Ora" shows.  Whatever order the random sort gives,
    the list has at most five entries; each entry belongs to a request of
    the store that another account owns, shows the earnings of the
    primary profile for its cost and a remaining count of at least one,
    and carries a payload from which the id of that request is read
    back. *)
Theorem start_earning_entries (order : list joined → list joined)
  (s : store) (user_id : Z) (entries : list (string * Z * Z * string)) :
  (∀ l, Permutation (order l) l) →
  (handle_start_earning order s user_id).2 = AvailableList entries →
  (length entries ≤ 5)%nat
  ∧ ∀ e, e ∈ entries →
      ∃ i, i ∈ interactions s
           ∧ requester_id i ≠ user_id
           ∧ e = (action_type i,
                  calculate_earnings (cost_per_action i) "primary",
                  quantity i - completed_count i,
                  "do_action_" +:+ PyStr.of_int (id i))
           ∧ 1 ≤ quantity i - completed_count i
           ∧ callback_id e.2 = Ok (id i).
Proof.
  intros Hperm. unfold handle_start_earning.
  change (match get_user s user_id with
          | Some _ => s
          | None => (create_user s user_id).1
          end) with (ensure_user s user_id).
  destruct (ensure_user_tables s user_id) as (Hint & _).
  pose proof (listed_length order (ensure_user s user_id) user_id 5) as Hlen.
  pose proof (λ r, listed_rows order (ensure_user s user_id) user_id 5 r Hperm)
    as Hrows.
  destruct (get_available_interactions order (ensure_user s user_id) user_id 5)
    as [|r0 found] eqn:Hfound; [done|].
  cbn [snd]. intros Heq.
  assert (entries
          = map (λ r : joined,
                   (action_type r.1,
                    calculate_earnings (cost_per_action r.1) "primary",
                    quantity r.1 - completed_count r.1,
                    "do_action_" +:+ PyStr.of_int (id r.1)))
                (r0 :: found)) as ->
    by (inversion Heq; reflexivity).
  clear Heq. split.
  - rewrite length_map. lia.
  - intros e He. apply list_elem_of_fmap in He as (r & -> & Hr).
    destruct (Hrows r Hr) as (Hin & _ & Hown & _ & Hcnt).
    rewrite Hint in Hin. exists r.1. repeat split; [done | done | lia |].
    cbn [snd]. apply callback_id_do_action.
Qed.

Lemma start_earning_entries_witness :
  (length [("like"%string, 0, 1, "do_action_1"%string)] ≤ 5)%nat
  ∧ callback_id "do_action_1" = Ok 1.
Proof.
  destruct (start_earning_entries (@rev joined) like_created 2
              [("like"%string, 0, 1, "do_action_1"%string)]) as [Hlen Hall].
  - intros l. symmetry. apply Permutation_rev.
  - reflexivity.
  - split; [exact Hlen|].
    destruct (Hall ("like"%string, 0, 1, "do_action_1"%string))
      as (i & _ & _ & Heq & _ & Hid); [left|].
    inversion Heq as [[Ha He Hr Hp]]. cbn [snd] in Hid.
    assert (id i = 1) as Hone.
    { apply (inj PyStr.of_int). apply (f_equal (λ x, x)) in Hp.
      change "do_action_1"%string with ("do_action_" +:+ PyStr.of_int 1) in Hp.
      by inversion Hp. }
    by rewrite Hone in Hid.
Defined.

(** X19: a request is offered only while its requester has an account
    row.  Every row that [get_available_interactions] returns belongs to
    a requester present in [users], and the name shown with it is the
    primary handle of that requester; a request filed under an id with no
    account row is returned to nobody. *)
Theorem listing_needs_requester_row (order : list joined → list joined)
  (s : store) (user_id limit : Z) (r : joined) :
  (∀ l, Permutation (order l) l) →
  r ∈ get_available_interactions order s user_id limit →
  ∃ requester, users s !! requester_id r.1 = Some requester
               ∧ r.2 = instagram_username requester.
Proof. intros Hperm Hr. by destruct (listed_rows _ _ _ _ _ Hperm Hr) as (_ & ? & _). Qed.

Lemma listing_needs_requester_row_witness :
  ∃ requester,
    users like_created
    !! requester_id (mkInteraction 1 1 "https://instagram.com/p/ABC123DEF456/"
                                   "like" 1 1 1 0 "active" None)
    = Some requester
    ∧ (None : option string) = instagram_username requester.
Proof.
  apply (listing_needs_requester_row (@rev joined) like_created 2 5
           (mkInteraction 1 1 "https://instagram.com/p/ABC123DEF456/"
                          "like" 1 1 1 0 "active" None, None)).
  - intros l. symmetry. apply Permutation_rev.
  - vm_compute. left.
Defined.

(** ** Administrator requests *)

(** X20: [/admin_richiesta] files a request that nobody pays for.  A
    caller who is no administrator gets the store back unchanged.  For an
    administrator, a valid link, a known kind and two integers, the
    request is appended under the first administrator with the quantity
    and the cost as typed, whatever their sign and whatever
    [ACTION_COSTS] says, and the accounts are left as they were; while
    the first administrator has no account row the request is offered to
    nobody. *)
Theorem admin_request_command_effect (s : store) (user_id : Z)
  (args : list string) :
  (is_admin user_id = false →
   admin_request_command s user_id args = (s, NotAllowed)
   ∧ admin_campaign_command s user_id args = (s, NotAllowed))
  ∧ (∀ link action a2 a3 rest qty cost,
       is_admin user_id = true →
       args = link :: action :: a2 :: a3 :: rest →
       PyStr.int a2 = Some qty → PyStr.int a3 = Some cost →
       is_valid_instagram_link link = true →
       is_Some (ACTION_COSTS !! action) →
       let s' := set_interactions
                   (λ rows, rows ++ [mkInteraction (next_rowid rows) 123456789
                                       link action qty cost (qty * cost) 0
                                       "active" None]) s in
       admin_request_command s user_id args
       = (s', AdminRequestCreated (next_rowid (interactions s)) link action
                qty cost (qty * cost))
       ∧ admin_campaign_command s user_id args
         = admin_request_command s user_id args
       ∧ users s' = users s
       ∧ (users s !! 123456789 = None →
          ∀ order caller limit r,
            (∀ l, Permutation (order l) l) →
            r ∈ get_available_interactions order s' caller limit →
            requester_id r.1 ≠ 123456789)).
Proof.
  split.
  - intros Hno. unfold admin_campaign_command, admin_request_command.
    by rewrite Hno.
  - intros link action a2 a3 rest qty cost Hyes -> H2 H3 Hlink Haction s'.
    assert (admin_request_command s user_id (link :: action :: a2 :: a3 :: rest)
            = (s', AdminRequestCreated (next_rowid (interactions s)) link
                     action qty cost (qty * cost))) as Heq.
    { unfold admin_request_command. rewrite Hyes, H2, H3, Hlink. cbn [negb].
      by rewrite bool_decide_eq_true_2. }
    split; [done|]. split; [|split; [done|]].
    + unfold admin_campaign_command. by rewrite Hyes.
    + intros Hnone order caller limit r Hperm Hr Hreq.
      destruct (listed_rows _ _ _ _ _ Hperm Hr) as (_ & (x & Hx & _) & _).
      rewrite Hreq in Hx. cbn in Hx. by rewrite Hnone in Hx.
Qed.

Lemma admin_request_command_effect_witness :
  admin_request_command run_users 2
    ["https://instagram.com/p/ABC123DEF456/"; "like"; "-3"; "7"]%string
  = (run_users, NotAllowed)
  ∧ (admin_request_command run_users 123456789
       ["https://instagram.com/p/ABC123DEF456/"; "like"; "-3"; "7"]%string).2
    = AdminRequestCreated 1 "https://instagram.com/p/ABC123DEF456/" "like"
                          (-3) 7 (-21)
  ∧ get_available_interactions (λ l, l)
      (admin_request_command run_users 123456789
         ["https://instagram.com/p/ABC123DEF456/"; "like"; "3"; "7"]%string).1
      2 5 = [].
Proof.
  destruct (admin_request_command_effect run_users 2
              ["https://instagram.com/p/ABC123DEF456/"; "like"; "-3"; "7"]
              %string) as [Hno _].
  destruct (admin_request_command_effect run_users 123456789
              ["https://instagram.com/p/ABC123DEF456/"; "like"; "-3"; "7"]
              %string) as [_ Hyes].
  split; [by apply Hno|]. split.
  - assert (is_Some (ACTION_COSTS !! "like"%string)) as Hk
      by (vm_compute; eauto).
    destruct (Hyes "https://instagram.com/p/ABC123DEF456/" "like" "-3" "7"
                [] (-3) 7 eq_refl eq_refl eq_refl eq_refl eq_refl Hk)%string
      as (Heq & _).
    by rewrite Heq.
  - reflexivity.
Defined.

(** ** The purchase form, step by step *)



(** ** Tickets *)

(** X22: [/ticket] files the words joined by single spaces under the
    next ticket id and registers an unknown sender on the way, with the
    welcome balance; without words it changes nothing. *)
Theorem ticket_command_effect (s : store) (user_id : Z) (args : list string) :
  ticket_command s user_id [] = (s, TicketUsage)
  ∧ (args ≠ [] →
     let s' := (ticket_command s user_id args).1 in
     (ticket_command s user_id args).2
     = TicketSent (next_rowid (tickets s)) (join_space args)
     ∧ tickets s'
       = tickets s ++ [mkTicket (next_rowid (tickets s)) user_id
                                (join_space args) "open"]
     ∧ (users s !! user_id = None →
        users s' = <[user_id := new_user]> (users s))
     ∧ (is_Some (users s !! user_id) → users s' = users s)
     ∧ interactions s' = interactions s
     ∧ user_interactions s' = user_interactions s).
Proof.
  split; [done|]. intros Hargs. destruct args as [|a rest]; [done|].
  unfold ticket_command, ensure_user, get_user, create_user.
  destruct (users s !! user_id) as [u|] eqn:Hu; cbn; repeat split; eauto.
  - intros ?. done.
  - intros [? ?]. done.
Qed.

Lemma ticket_command_effect_witness :
  (ticket_command init_database 5 ["saldo"; "sbagliato"]%string).2
  = TicketSent 1 "saldo sbagliato"
  ∧ (coin_balance
       <$> users (ticket_command init_database 5
                    ["saldo"; "sbagliato"]%string).1 !! 5) = Some 10.
Proof.
  destruct (ticket_command_effect init_database 5
              ["saldo"; "sbagliato"]%string) as [_ H].
  destruct H as (Hreply & _ & Hnew & _); [done|].
  split; [exact Hreply|]. by rewrite Hnew.
Defined.

(** ** Coins in circulation *)

Section Circulation.

Let add_coins := λ (_ : Z) (u : user) (acc : Z), coin_balance u + acc.

Lemma sum_insert_new (m : gmap Z user) (k : Z) (u : user) :
  m !! k = None →
  map_fold add_coins 0 (<[k := u]> m) = coin_balance u + map_fold add_coins 0 m.
Proof.
  intros H. apply (map_fold_insert_L add_coins); [|done].
  intros. unfold add_coins. lia.
Qed.

Lemma sum_replace (m : gmap Z user) (k : Z) (u u' : user) :
  m !! k = Some u →
  map_fold add_coins 0 (<[k := u']> m)
  = map_fold add_coins 0 m - coin_balance u + coin_balance u'.
Proof.
  intros H.
  rewrite <- (insert_delete_id m k u H) at 2.
  rewrite <- (insert_delete_eq m k u').
  rewrite !sum_insert_new by apply lookup_delete_eq. lia.
Qed.

Lemma total_coins_alter (s : store) (k amount : Z) :
  total_coins (set_users (alter (add_balance amount) k) s)
  = total_coins s + match users s !! k with Some _ => amount | None => 0 end.
Proof.
  unfold total_coins. cbn. fold add_coins.
  destruct (users s !! k) as [u|] eqn:Hu.
  - rewrite (alter_present _ _ _ u Hu), (sum_replace _ _ u) by done. cbn. lia.
  - rewrite alter_absent by done. lia.
Qed.

Lemma total_coins_new_user (s : store) (k : Z) :
  users s !! k = None →
  total_coins (set_users (insert k new_user) s) = total_coins s + 10.
Proof.
  intros H. unfold total_coins. cbn. fold add_coins.
  rewrite sum_insert_new by done. cbn. lia.
Qed.

End Circulation.

(** X23: how each operation moves the sum that [/admin_stats] reports
    as coins in circulation.  Registering an account adds 10; an update
    of the balance of a registered account adds the amount; filing a
    request through [create_interaction_request] adds nothing; a
    completion adds the earnings when the pair is new and the account is
    registered, and nothing otherwise; a quantity step that creates a
    request takes away quantity times cost. *)
Theorem coins_in_circulation (s : store) (k : Z) :
  (users s !! k = None →
   total_coins (create_user s k).1 = total_coins s + 10)
  ∧ (∀ amount,
       total_coins (update_user_balance s k amount).1
       = total_coins s + match users s !! k with Some _ => amount | None => 0 end)
  ∧ (∀ link action qty cost,
       total_coins (create_interaction_request s k link action qty cost).1
       = total_coins s)
  ∧ (∀ interaction_id earnings profile_type shot,
       total_coins (complete_interaction s k interaction_id earnings
                                         profile_type shot).1
       = total_coins s
         + (if already_completed s k interaction_id then 0
            else match users s !! k with Some _ => earnings | None => 0 end))
  ∧ (∀ ud text interaction_id action qty total link new_balance,
       (handle_quantity s ud k text).2
       = Ok (RequestCreated interaction_id action qty total link new_balance,
             END) →
       total_coins (handle_quantity s ud k text).1.1 = total_coins s - total).
Proof.
  split; [|split; [|split; [|split]]].
  - intros Hnew. rewrite create_user_new by done. by apply total_coins_new_user.
  - intros amount. apply total_coins_alter.
  - done.
  - intros iid e p sh. unfold complete_interaction.
    destruct (already_completed s k iid); [cbn; lia|].
    cbn [fst]. unfold total_coins. cbn.
    pose proof (total_coins_alter s k e) as H. unfold total_coins in H.
    cbn in H. exact H.
  - intros ud text iid action qty total link nb. unfold handle_quantity, get_user.
    destruct (PyStr.int _) as [q|]; [|done].
    destruct (q <=? 0); [done|].
    destruct (ud_interaction_type ud) as [a|]; [|done].
    destruct (ACTION_COSTS !! a) as [c|]; [|done].
    destruct (users s !! k) as [u|] eqn:Hu; [|done].
    destruct (coin_balance u <? q * c); [done|].
    destruct (ud_post_link ud) as [l|]; [|done].
    cbn [fst snd]. intros Heq.
    assert (total = q * c) as -> by (by inversion Heq). clear Heq.
    unfold create_interaction_request, update_user_balance.
    cbn [fst]. unfold total_coins. cbn.
    pose proof (total_coins_alter s k (- (q * c))) as H.
    unfold total_coins in H. cbn in H. rewrite Hu in H. lia.
Qed.

Lemma coins_in_circulation_witness :
  total_coins (create_user run_users 9).1 = total_coins run_users + 10
  ∧ total_coins run_created = total_coins run_users - 10
  ∧ total_coins (complete_interaction run_created 2 1 1 "primary" None).1
    = total_coins run_created + 1.
Proof.
  destruct (coins_in_circulation run_users 9) as (Hnew & _).
  destruct (coins_in_circulation run_users 1) as (_ & _ & _ & _ & Hqty).
  destruct (coins_in_circulation run_created 2) as (_ & _ & _ & Hdone & _).
  split; [by apply Hnew|]. split.
  - apply (Hqty ud_follow "2" 1 "follow" 2 10
             "https://instagram.com/p/ABC123DEF456/" 0)%string.
    reflexivity.
  - apply (Hdone 1 1 "primary"%string None).
Defined.

(** ** Earnings against the cost *)

(** X24: a completion pays back at most a quarter of the cost, rounded
    down.  For every cost from 0 up to [2 ^ 53] the earnings of the
    primary profile [e] satisfy [4 * e <= cost < 4 * e + 4]; for the
    kinds of [ACTION_COSTS] this means that like and invio_chat, which
    cost 1, earn nothing, and that every other kind earns at least 1. *)
Theorem earnings_at_most_a_quarter (cost : Z) :
  0 ≤ cost < 2 ^ 53 →
  4 * calculate_earnings cost "primary" ≤ cost
                                        < 4 * calculate_earnings cost "primary" + 4
  ∧ (calculate_earnings cost "primary" = 0 ↔ cost < 4)
  ∧ (∀ action,
       ACTION_COSTS !! action = Some cost →
       (calculate_earnings cost "primary" = 0
        ↔ action = "like"%string ∨ action = "invio_chat"%string)).
Proof.
  intros Hcost. rewrite earnings_primary_small by done.
  pose proof (Z.div_mod cost 4) as Hdm.
  pose proof (Z.mod_pos_bound cost 4) as Hmod.
  split; [lia|]. split; [split; intros; [lia | apply Z.div_small; lia]|].
  intros action Haction.
  apply elem_of_list_to_map_2 in Haction.
  repeat (apply elem_of_cons in Haction as [Haction|Haction];
          [inversion Haction; subst; cbn; split; intros H;
           try discriminate; try lia; try (by eauto);
           by destruct H as [H|H]; inversion H|]).
  by apply elem_of_nil in Haction.
Qed.

Lemma earnings_at_most_a_quarter_witness :
  calculate_earnings 1 "primary" = 0 ↔ 1 < 4.
Proof.
  assert (0 ≤ 1 < 2 ^ 53) as H by lia.
  by destruct (earnings_at_most_a_quarter 1 H) as (_ & Hz & _).
Defined.

(** ** Offered again *)

(** X25: the listing does not look at who has completed what.  A request
    that the listing holds for an account, and that still has room after
    one more completion, is held for that account again after the
    account has completed it; the second confirmation is then refused as
    already completed. *)
Theorem completed_request_offered_again (s : store) (user_id earnings : Z)
  (i : interaction) (name : option string) :
  reachable s →
  (i, name) ∈ get_available_interactions (λ l, l) s user_id (-1) →
  already_completed s user_id (id i) = false →
  completed_count i + 1 < quantity i →
  let s' := (complete_interaction s user_id (id i) earnings "primary"
                                  None).1 in
  (incr_completed i, name)
    ∈ get_available_interactions (λ l, l) s' user_id (-1)
  ∧ handle_confirm_action s' user_id
      ("confirm_action_" +:+ PyStr.of_int (id i))
    = (s', Ok AlreadyCompleted).
Proof.
  intros Hs Hin Hnew Hroom s'.
  destruct (listed_rows (λ l, l) s user_id (-1) (i, name)) as
    (Hi & (requester & Hreq & Hname) & Hown & Hact & _); [done | done |].
  cbn [fst snd] in *.
  assert (s' = set_users (alter (add_balance earnings) user_id)
                 (set_interactions
                    (map (λ j, if id j =? id i then incr_completed j else j))
                    (set_user_interactions
                       (λ rows, rows ++ [mkUserInteraction (next_rowid rows)
                                           user_id (id i) None earnings
                                           "primary"]) s))) as Hs'.
  { subst s'. unfold complete_interaction. by rewrite Hnew. }
  split.
  - unfold get_available_interactions, sql_limit. cbn [Z.ltb Z.compare].
    apply list_elem_of_filter. split.
    + unfold available. cbn [fst incr_completed requester_id status
        completed_count quantity].
      rewrite Hact. apply andb_true_intro. split; [|apply Z.ltb_lt; lia].
      apply andb_true_intro. split; [|done].
      apply negb_true_iff, Z.eqb_neq. done.
    + apply list_elem_of_omap. exists (incr_completed i). split.
      * rewrite Hs'. cbn. apply list_elem_of_fmap. exists i.
        by rewrite Z.eqb_refl.
      * unfold join_users. rewrite Hs'. cbn.
        rewrite lookup_alter_ne by done. rewrite Hreq. cbn. by rewrite Hname.
  - assert (select_interaction s' (id i) = Some (incr_completed i)) as Hsel.
    { rewrite Hs'. unfold select_interaction. cbn.
      rewrite find_incr. fold (select_interaction s (id i)).
      by rewrite (reachable_select s i Hs Hi). }
    assert ((user_id, id i) ∈ completion_pairs s') as Hpair.
    { rewrite Hs'. unfold completion_pairs. cbn.
      rewrite fmap_app. apply elem_of_app. right. cbn. left. }
    unfold handle_confirm_action.
    rewrite callback_id_confirm_action, Hsel.
    by rewrite complete_interaction_again.
Qed.

Lemma completed_request_offered_again_witness :
  (mkInteraction 1 1 "https://instagram.com/p/ABC123DEF456/" "follow"
                 2 5 10 1 "active" None, None)
    ∈ get_available_interactions (λ l, l) run_first 2 (-1)
  ∧ handle_confirm_action run_first 2 "confirm_action_1"
    = (run_first, Ok AlreadyCompleted).
Proof.
  assert (completed_count
            (mkInteraction 1 1 "https://instagram.com/p/ABC123DEF456/"
                           "follow" 2 5 10 0 "active" None) + 1
          < quantity
              (mkInteraction 1 1 "https://instagram.com/p/ABC123DEF456/"
                             "follow" 2 5 10 0 "active" None)) as Hroom
    by (cbn; lia).
  assert ((mkInteraction 1 1 "https://instagram.com/p/ABC123DEF456/"
                         "follow" 2 5 10 0 "active" None, None)
            ∈ get_available_interactions (λ l, l) run_created 2 (-1)) as Hin
    by (vm_compute; left).
  exact (completed_request_offered_again run_created 2 1 _ None
           run_created_reachable Hin eq_refl Hroom).
Defined.
